(** * StockBot (src/main.py): quote resolution, Slack handlers and watchlist

    A shallow embedding of [src/main.py].  Python values decoded from the
    upstream JSON are the inductive [PyVal]; every Python exception the code
    can raise is a constructor of [PyExc]; the HTTP calls are events recorded
    in a trace, and the upstream itself is a parameter of the environment
    [Env] (the environment variable [ALPHA_KEY] and the JSON body that
    [requests.get(url, timeout=...).json()] yields, [None] when either call
    raises).  Strings are byte strings; non-ASCII text of the source is kept
    as its UTF-8 bytes. *)

From Stdlib Require Import ZArith List String Ascii Bool Lia Permutation.
Import ListNotations.
Local Open Scope string_scope.
Local Open Scope Z_scope.
Set Warnings "-register-all".

(** ** Python values *)

(** A Python [float].  A finite float is kept as the decimal [m * 10^e] it
    was written as (normalised: no trailing zero in [m]); the binary64
    rounding of that decimal is not modelled, overflow to infinity and
    underflow to zero are.  Negative zero is not distinguished. *)
Inductive PyFloat :=
| FFin (m : Z) (e : Z)
| FInf
| FNegInf
| FNaN.

(** The Python objects [json.loads] produces (object keys are strings). *)
Inductive PyVal :=
| PNone
| PBool (b : bool)
| PInt (z : Z)
| PFloat (f : PyFloat)
| PStr (s : string)
| PList (l : list PyVal)
| PDict (kvs : list (string * PyVal)).

Inductive PyExc :=
| TypeError
| AttributeError
| ValueError
| OverflowError
| KeyError
| IndexError
| RequestException.

Inductive Res (A : Type) :=
| Ok (a : A)
| Raise (e : PyExc).
Arguments Ok {A} a.
Arguments Raise {A} e.

Definition rbind {A B} (r : Res A) (f : A -> Res B) : Res B :=
  match r with
  | Ok a => f a
  | Raise e => Raise e
  end.

Notation "x <-! r ;; k" := (rbind r (fun x => k))
  (at level 61, r at next level, right associativity).

(** ** Effects: HTTP requests, sleeps, and exceptions *)

Inductive Event :=
| HttpGet (url : string) (timeout_ms : Z)
| HttpPost (url : string) (text : string)
| Sleep (ms : Z).

(** A computation yields the trace of the requests it made and a value or
    the exception it raised. *)
Definition M (A : Type) : Type := (list Event * Res A)%type.

Definition ret {A} (a : A) : M A := ([], Ok a).

Definition lift {A} (r : Res A) : M A := ([], r).

Definition bind {A B} (m : M A) (f : A -> M B) : M B :=
  match m with
  | (tr, Ok a) => let (tr', r) := f a in ((tr ++ tr')%list, r)
  | (tr, Raise e) => (tr, Raise e)
  end.

Notation "x <- m ;; k" := (bind m (fun x => k))
  (at level 61, m at next level, right associativity).

(** [try: m except Exception: h] *)
Definition try_except {A} (m : M A) (h : PyExc -> M A) : M A :=
  match m with
  | (tr, Ok a) => (tr, Ok a)
  | (tr, Raise e) => let (tr', r) := h e in ((tr ++ tr')%list, r)
  end.

(** The process environment and the upstream as the code sees them:
    [get_json url timeout] is the body of [requests.get(url, timeout)]
    decoded by [r.json()], or [None] when either raises. *)
Record Env := {
  ALPHA_KEY : string;
  get_json : string -> Z -> option PyVal
}.

(** [requests.get(url, timeout=timeout).json()] *)
Definition http_get_json (env : Env) (url : string) (timeout : Z) : M PyVal :=
  ([HttpGet url timeout],
   match get_json env url timeout with
   | Some j => Ok j
   | None => Raise RequestException
   end).

(** ** Characters and strings *)

Definition chr (n : nat) : string := String (ascii_of_nat n) EmptyString.
Definition nl : string := chr 10.

(** Python's ASCII whitespace ([str.isspace] on code points below 128). *)
Definition is_space (c : ascii) : bool :=
  let n := nat_of_ascii c in
  (n =? 32)%nat || ((9 <=? n)%nat && (n <=? 13)%nat)
  || ((28 <=? n)%nat && (n <=? 31)%nat).

Fixpoint lstrip (s : string) : string :=
  match s with
  | EmptyString => EmptyString
  | String c r => if is_space c then lstrip r else s
  end.

Definition rev_string (s : string) : string :=
  string_of_list_ascii (rev (list_ascii_of_string s)).

(** [str.strip()] *)
Definition strip (s : string) : string := rev_string (lstrip (rev_string (lstrip s))).

Definition upper_char (c : ascii) : ascii :=
  let n := nat_of_ascii c in
  if (97 <=? n)%nat && (n <=? 122)%nat then ascii_of_nat (n - 32) else c.

Definition lower_char (c : ascii) : ascii :=
  let n := nat_of_ascii c in
  if (65 <=? n)%nat && (n <=? 90)%nat then ascii_of_nat (n + 32) else c.

Fixpoint map_string (f : ascii -> ascii) (s : string) : string :=
  match s with
  | EmptyString => EmptyString
  | String c r => String (f c) (map_string f r)
  end.

(** [str.upper()] and [str.lower()] (ASCII letters). *)
Definition upper (s : string) : string := map_string upper_char s.
Definition lower (s : string) : string := map_string lower_char s.

(** [needle in hay] for two strings. *)
Fixpoint contains (needle hay : string) : bool :=
  prefix needle hay ||
  match hay with
  | EmptyString => false
  | String _ r => contains needle r
  end.

(** [sep.join(l)] *)
Definition join (sep : string) (l : list string) : string := concat sep l.

(** [str.split()] with no argument: runs of whitespace separate, no empty
    field is produced. *)
Fixpoint split_ws_aux (cur : string) (s : string) : list string :=
  match s with
  | EmptyString => if String.eqb cur "" then [] else [rev_string cur]
  | String c r =>
      if is_space c
      then (if String.eqb cur "" then [] else [rev_string cur]) ++ split_ws_aux "" r
      else split_ws_aux (String c cur) r
  end%list.

Definition split_ws (s : string) : list string := split_ws_aux "" s.

(** ** Decimal digits *)

Definition digit_char (d : Z) : ascii := ascii_of_nat (48 + Z.to_nat d).

Definition is_digit (c : ascii) : bool :=
  let n := nat_of_ascii c in (48 <=? n)%nat && (n <=? 57)%nat.

Definition digit_val (c : ascii) : Z := Z.of_nat (nat_of_ascii c - 48).

(** The decimal digits of [n >= 0], most significant first; [fuel] bounds
    their number. *)
Fixpoint digits_aux (fuel : nat) (n : Z) (acc : list ascii) : list ascii :=
  match fuel with
  | O => acc
  | S f =>
      if n <? 10 then digit_char n :: acc
      else digits_aux f (n / 10) (digit_char (n mod 10) :: acc)
  end.

Definition digits (n : Z) : list ascii := digits_aux (S (Z.to_nat (Z.log2 n))) n [].

(** [repr(n)] / [str(n)] of an [int]. *)
Definition int_repr (z : Z) : string :=
  if z <? 0 then String "-" (string_of_list_ascii (digits (- z)))
  else string_of_list_ascii (digits z).

Definition zeros (n : nat) : list ascii := repeat "0"%char n.

(** ** Floats: construction *)

(** Strip trailing zeros of a decimal mantissa. *)
Fixpoint strip_zeros (fuel : nat) (m e : Z) : Z * Z :=
  match fuel with
  | O => (m, e)
  | S f => if (m mod 10 =? 0) then strip_zeros f (m / 10) (e + 1) else (m, e)
  end.

Definition normalize (m e : Z) : PyFloat :=
  if m =? 0 then FFin 0 0
  else let '(m', e') := strip_zeros (S (Z.to_nat (Z.log2 (Z.abs m)))) m e in FFin m' e'.

(** Magnitudes at least [(2^54 - 1) * 2^970] round to infinity in binary64;
    magnitudes at most [2^-1075] round to zero. *)
Definition overflow_bound : Z := (2 ^ 54 - 1) * 2 ^ 970.

Definition decimal_overflows (m e : Z) : bool :=
  if 0 <=? e then overflow_bound <=? Z.abs m * 10 ^ e
  else overflow_bound * 10 ^ (- e) <=? Z.abs m.

Definition decimal_underflows (m e : Z) : bool :=
  (e <? 0) && (Z.abs m * 2 ^ 1075 <=? 10 ^ (- e)).

(** The float nearest to the decimal [m * 10^e]. *)
Definition float_of_decimal (m e : Z) : PyFloat :=
  if m =? 0 then FFin 0 0
  else if decimal_overflows m e then (if m <? 0 then FNegInf else FInf)
  else if decimal_underflows m e then FFin 0 0
  else normalize m e.

(** Digit runs of [float()]'s grammar: digits, a single [_] allowed between
    two digits. *)
Fixpoint digits_tail (l : list ascii) : list ascii * list ascii :=
  match l with
  | [] => ([], [])
  | c :: r =>
      if is_digit c then let '(ds, r') := digits_tail r in (c :: ds, r')
      else if Ascii.eqb c "_" then
        match r with
        | d :: r2 =>
            if is_digit d then let '(ds, r') := digits_tail r2 in (d :: ds, r')
            else ([], l)
        | [] => ([], l)
        end
      else ([], l)
  end.

Definition digitpart (l : list ascii) : option (list ascii * list ascii) :=
  match l with
  | c :: r => if is_digit c then let '(ds, r') := digits_tail r in Some (c :: ds, r') else None
  | [] => None
  end.

Definition value_of_digits (ds : list ascii) : Z :=
  fold_left (fun acc c => acc * 10 + digit_val c) ds 0.

(** Mantissa: [digitpart ["." [digitpart]] | "." digitpart]; returns the
    integer and fraction digits. *)
Definition parse_mantissa (l : list ascii) : option (list ascii * list ascii * list ascii) :=
  match digitpart l with
  | Some (ip, r) =>
      match r with
      | c :: r' =>
          if Ascii.eqb c "." then
            match digitpart r' with
            | Some (fp, r'') => Some (ip, fp, r'')
            | None => Some (ip, [], r')
            end
          else Some (ip, [], r)
      | [] => Some (ip, [], [])
      end
  | None =>
      match l with
      | c :: r =>
          if Ascii.eqb c "." then
            match digitpart r with
            | Some (fp, r') => Some ([], fp, r')
            | None => None
            end
          else None
      | [] => None
      end
  end.

Definition parse_sign (l : list ascii) : Z * list ascii :=
  match l with
  | c :: r =>
      if Ascii.eqb c "-" then (-1, r) else if Ascii.eqb c "+" then (1, r) else (1, l)
  | [] => (1, [])
  end.

(** Exponent: [("e" | "E") [sign] digitpart]. *)
Definition parse_exponent (l : list ascii) : option (Z * list ascii) :=
  match l with
  | c :: r =>
      if Ascii.eqb c "e" || Ascii.eqb c "E" then
        let '(sg, r') := parse_sign r in
        match digitpart r' with
        | Some (ds, r'') => Some (sg * value_of_digits ds, r'')
        | None => None
        end
      else Some (0, l)
  | [] => Some (0, [])
  end.

(** [float(s)] for a [str]: [None] is the [ValueError]. *)
Definition float_of_string (s : string) : option PyFloat :=
  let t := strip s in
  let '(sg, r) := parse_sign (list_ascii_of_string t) in
  let word := lower (string_of_list_ascii r) in
  if String.eqb word "inf" || String.eqb word "infinity" then Some (if sg <? 0 then FNegInf else FInf)
  else if String.eqb word "nan" then Some FNaN
  else
    match parse_mantissa r with
    | Some (ip, fp, r1) =>
        match parse_exponent r1 with
        | Some (ex, []) =>
            Some (float_of_decimal (sg * value_of_digits (ip ++ fp)%list)
                    (ex - Z.of_nat (List.length fp)))
        | _ => None
        end
    | None => None
    end.

(** [float(v)] *)
Definition py_float (v : PyVal) : Res PyFloat :=
  match v with
  | PFloat f => Ok f
  | PInt z => if decimal_overflows z 0 then Raise OverflowError else Ok (normalize z 0)
  | PBool b => Ok (if b then FFin 1 0 else FFin 0 0)
  | PStr s => match float_of_string s with Some f => Ok f | None => Raise ValueError end
  | PNone | PList _ | PDict _ => Raise TypeError
  end.

(** ** Floats: [repr] and [format(x, ".Nf")] *)

(** [repr(f)]: the shortest decimal that reads back as [f], in positional
    notation for decimal exponents in [-4, 16), otherwise as [d.ddde+XX]. *)
Definition float_repr (f : PyFloat) : string :=
  match f with
  | FInf => "inf"
  | FNegInf => "-inf"
  | FNaN => "nan"
  | FFin m e =>
      if m =? 0 then "0.0" else
      let sign := if m <? 0 then "-" else "" in
      let ds := digits (Z.abs m) in
      let n := Z.of_nat (List.length ds) in
      let x := n - 1 + e in
      let body :=
        if (-4 <=? x) && (x <? 16) then
          if 0 <=? x then
            if n <=? x + 1 then ds ++ zeros (Z.to_nat (x + 1 - n)) ++ ["."; "0"]%char
            else firstn (Z.to_nat (x + 1)) ds ++ ["."%char] ++ skipn (Z.to_nat (x + 1)) ds
          else ["0"; "."]%char ++ zeros (Z.to_nat (- x - 1)) ++ ds
        else
          let mant :=
            match ds with
            | d :: [] => [d]
            | d :: rest => d :: "."%char :: rest
            | [] => []
            end in
          let xd := digits (Z.abs x) in
          mant ++ ["e"%char; if x <? 0 then "-"%char else "+"%char]
               ++ (if (List.length xd <? 2)%nat then "0"%char :: xd else xd)
      in (sign ++ string_of_list_ascii body)%string
  end%list.

(** Round [a / d] to the nearest integer, ties to even ([a >= 0], [d > 0]). *)
Definition round_half_even (a d : Z) : Z :=
  let q := a / d in
  let r := a mod d in
  if d <? 2 * r then q + 1
  else if 2 * r <? d then q
  else if Z.even q then q else q + 1.

(** [format(f, ".{prec}f")] *)
Definition format_fixed (prec : nat) (f : PyFloat) : string :=
  match f with
  | FInf => "inf"
  | FNegInf => "-inf"
  | FNaN => "nan"
  | FFin m e =>
      let p := Z.of_nat prec in
      let a := if 0 <=? e + p then Z.abs m * 10 ^ (e + p)
               else round_half_even (Z.abs m) (10 ^ (- (e + p))) in
      let fds := digits (a mod 10 ^ p) in
      let fpad := (zeros (prec - List.length fds) ++ fds)%list in
      (if m <? 0 then "-" else "") ++ string_of_list_ascii (digits (a / 10 ^ p))
        ++ (if (prec =? 0)%nat then "" else "." ++ string_of_list_ascii fpad)
  end.

(** The ["{x:.Nf}"] field of an f-string. *)
Definition format_f (prec : nat) (v : PyVal) : Res string :=
  match v with
  | PFloat f => Ok (format_fixed prec f)
  | PInt z =>
      if decimal_overflows z 0 then Raise OverflowError
      else Ok (format_fixed prec (normalize z 0))
  | PBool b => Ok (format_fixed prec (if b then FFin 1 0 else FFin 0 0))
  | PStr _ => Raise ValueError
  | PNone | PList _ | PDict _ => Raise TypeError
  end.

(** ** [repr] and [str] of Python values *)

Definition hex_char (d : nat) : ascii :=
  if (d <? 10)%nat then ascii_of_nat (48 + d) else ascii_of_nat (87 + d).

Definition dquote : ascii := ascii_of_nat 34.
Definition backslash : ascii := ascii_of_nat 92.

Definition escape_char (q c : ascii) : list ascii :=
  let n := nat_of_ascii c in
  if Ascii.eqb c backslash then [backslash; backslash]
  else if Ascii.eqb c q then [backslash; q]
  else if (n =? 9)%nat then [backslash; "t"%char]
  else if (n =? 10)%nat then [backslash; "n"%char]
  else if (n =? 13)%nat then [backslash; "r"%char]
  else if (n <? 32)%nat || (n =? 127)%nat
  then [backslash; "x"%char; hex_char (n / 16); hex_char (n mod 16)]
  else [c].

(** [repr(s)] of a [str]: single quotes unless the text has a single quote
    and no double quote. *)
Definition str_repr (s : string) : string :=
  let l := list_ascii_of_string s in
  let q := if existsb (Ascii.eqb "'"%char) l && negb (existsb (Ascii.eqb dquote) l)
           then dquote else "'"%char in
  string_of_list_ascii (q :: flat_map (escape_char q) l ++ [q])%list.

Fixpoint py_repr (v : PyVal) : string :=
  match v with
  | PNone => "None"
  | PBool true => "True"
  | PBool false => "False"
  | PInt z => int_repr z
  | PFloat f => float_repr f
  | PStr s => str_repr s
  | PList l => "[" ++ join ", " (map py_repr l) ++ "]"
  | PDict kvs =>
      "{" ++ join ", " (map (fun kv => str_repr (fst kv) ++ ": " ++ py_repr (snd kv)) kvs)
      ++ "}"
  end.

(** [str(v)] *)
Definition py_str (v : PyVal) : string :=
  match v with
  | PStr s => s
  | _ => py_repr v
  end.

(** ** Truth values, containment, and subscripts *)

Definition truthy (v : PyVal) : bool :=
  match v with
  | PNone => false
  | PBool b => b
  | PInt z => negb (z =? 0)
  | PFloat (FFin m _) => negb (m =? 0)
  | PFloat _ => true
  | PStr s => negb (String.eqb s "")
  | PList l => match l with [] => false | _ => true end
  | PDict kvs => match kvs with [] => false | _ => true end
  end.

(** [a or b] *)
Definition py_or (a b : PyVal) : PyVal := if truthy a then a else b.

Definition is_dict (v : PyVal) : bool :=
  match v with PDict _ => true | _ => false end.

(** Python's [x is None]. *)
Definition is_none (v : PyVal) : bool :=
  match v with PNone => true | _ => false end.

(** [v == s] for a string literal [s]. *)
Definition eq_str (v : PyVal) (s : string) : bool :=
  match v with PStr s' => String.eqb s' s | _ => false end.

Fixpoint dict_lookup (k : string) (kvs : list (string * PyVal)) : option PyVal :=
  match kvs with
  | [] => None
  | (k', x) :: r => if String.eqb k k' then Some x else dict_lookup k r
  end.

(** [needle in v] for a string literal [needle]. *)
Definition py_in (needle : string) (v : PyVal) : Res bool :=
  match v with
  | PStr s => Ok (contains needle s)
  | PList l => Ok (existsb (fun x => eq_str x needle) l)
  | PDict kvs => Ok (existsb (fun kv => String.eqb (fst kv) needle) kvs)
  | PNone | PBool _ | PInt _ | PFloat _ => Raise TypeError
  end.

(** [v.get(k)] *)
Definition py_get (v : PyVal) (k : string) : Res PyVal :=
  match v with
  | PDict kvs => Ok (match dict_lookup k kvs with Some x => x | None => PNone end)
  | _ => Raise AttributeError
  end.

(** [v[k]] for a string key. *)
Definition py_getitem (v : PyVal) (k : string) : Res PyVal :=
  match v with
  | PDict kvs => match dict_lookup k kvs with Some x => Ok x | None => Raise KeyError end
  | _ => Raise TypeError
  end.

(** ** Alpha Vantage helpers (main.py lines 17-111) *)

Definition rate_limit_notice : string := "Thank you for using Alpha Vantage".

(** [_is_rate_limited(payload)] *)
Definition _is_rate_limited (payload : PyVal) : Res bool :=
  let txt := py_str payload in
  b <-! py_in "Note" payload ;;
  if b then Ok true else Ok (contains rate_limit_notice txt).

(** [_is_info_or_error(payload)] *)
Definition _is_info_or_error (payload : PyVal) : Res bool :=
  b <-! py_in "Information" payload ;;
  if b then Ok true else py_in "Error Message" payload.

Definition av_query_url (func ticker key : string) : string :=
  "https://www.alphavantage.co/query" ++ "?function=" ++ func ++ "&symbol=" ++ ticker
  ++ "&apikey=" ++ key.

Definition RATE_LIMIT : PyVal := PStr "RATE_LIMIT".

(** Python's [sorted] on strings: code-point order, which is byte order on
    UTF-8. *)
Fixpoint insert_sorted (x : string) (l : list string) : list string :=
  match l with
  | [] => [x]
  | y :: r => if String.leb x y then x :: l else y :: insert_sorted x r
  end.

Fixpoint sorted (l : list string) : list string :=
  match l with
  | [] => []
  | x :: r => insert_sorted x (sorted r)
  end.

(** [l[-1]] *)
Definition last_item (l : list string) : Res string :=
  match rev l with
  | x :: _ => Ok x
  | [] => Raise IndexError
  end.

(** The body of the [try] of lines 52-55. *)
Definition parse_daily (ts : list (string * PyVal)) : Res (PyVal * PyVal) :=
  latest_day <-! last_item (sorted (map fst ts)) ;;
  day <-! py_getitem (PDict ts) latest_day ;;
  c <-! py_getitem day "4. close" ;;
  close_px <-! py_float c ;;
  Ok (PStr "DAILY", PFloat close_px).

(** [_daily_close(ticker, timeout)] *)
Definition _daily_close (env : Env) (ticker : string) (timeout : Z) : M (PyVal * PyVal) :=
  let url := av_query_url "TIME_SERIES_DAILY" ticker (ALPHA_KEY env) in
  oj <- try_except (j <- http_get_json env url timeout ;; ret (Some j))
                   (fun _ => ret None) ;;
  match oj with
  | None => ret (PNone, PNone)
  | Some j =>
      rl <- lift (_is_rate_limited j) ;;
      if rl then ret (RATE_LIMIT, PNone) else
      ie <- lift (_is_info_or_error j) ;;
      if ie then ret (PNone, PNone) else
      ts <- lift (py_get j "Time Series (Daily)") ;;
      (* [if not ts or not isinstance(ts, dict)] *)
      match ts with
      | PDict kvs =>
          if negb (truthy ts) then ret (PNone, PNone)
          else try_except (lift (parse_daily kvs)) (fun _ => ret (PNone, PNone))
      | _ => ret (PNone, PNone)
      end
  end.

(** The 4-tuple [fetch_quote] returns. *)
Definition Quote : Type := (PyVal * PyVal * PyVal * PyVal)%type.

Definition rate_limited_quote : Quote := (RATE_LIMIT, PNone, PNone, PNone).
Definition no_quote : Quote := (PNone, PNone, PNone, PNone).

(** [d.get(k1) or d.get(k2)] *)
Definition get_either (d : PyVal) (k1 k2 : string) : Res PyVal :=
  a <-! py_get d k1 ;;
  if truthy a then Ok a else py_get d k2.

(** [j.get("Global Quote") or j.get("GlobalQuote") or {}] *)
Definition quote_of (j : PyVal) : Res PyVal :=
  q1 <-! py_get j "Global Quote" ;;
  if truthy q1 then Ok q1 else
  q2 <-! py_get j "GlobalQuote" ;;
  Ok (py_or q2 (PDict [])).

(** [quote.get("05. price") or quote.get("05.price")] *)
Definition price_of (quote : PyVal) : Res PyVal := get_either quote "05. price" "05.price".

(** The [try] of lines 95-102: [None] when it falls through. *)
Definition global_quote (px chg pct : PyVal) : M (option Quote) :=
  try_except
    (if is_none px then ret None else
     price_val <- lift (py_float px) ;;
     change_val <- lift (py_float (py_or chg (PFloat (FFin 0 0)))) ;;
     let pct_str := py_or pct (PStr "0.00%") in
     ret (Some (PFloat price_val, PFloat change_val, pct_str, PStr "GLOBAL")))
    (fun _ => ret None).

(** Lines 104-111: the daily-close fallback. *)
Definition daily_fallback (env : Env) (t : string) (timeout : Z) : M Quote :=
  r <- _daily_close env t (Z.max 2000 timeout) ;;
  let '(src, close_px) := r in
  if eq_str src "RATE_LIMIT" then ret rate_limited_quote
  else if negb (is_none close_px) then ret (close_px, PFloat (FFin 0 0), PStr "—", PStr "DAILY")
  else ret no_quote.

Definition gq_url (env : Env) (t : string) : string :=
  av_query_url "GLOBAL_QUOTE" t (ALPHA_KEY env).

(** [fetch_quote(ticker, timeout)]; timeouts are in milliseconds. *)
Definition fetch_quote (env : Env) (ticker : string) (timeout : Z) : M Quote :=
  let t := upper (strip ticker) in
  j <- try_except (http_get_json env (gq_url env t) timeout) (fun _ => ret (PDict [])) ;;
  rl <- lift (_is_rate_limited j) ;;
  if rl then ret rate_limited_quote else
  _ <- lift (_is_info_or_error j) ;;
  quote <- lift (quote_of j) ;;
  px <- lift (price_of quote) ;;
  chg <- lift (get_either quote "09. change" "09.change") ;;
  pct <- lift (get_either quote "10. change percent" "10.change percent") ;;
  g <- global_quote px chg pct ;;
  match g with
  | Some q => ret q
  | None => daily_fallback env t timeout
  end.

(** ** Slack helpers (lines 114-137) *)

(** [post_to_response_url(response_url, text)]: a failed POST is printed
    and dropped, so the call always returns. *)
Definition post_to_response_url (response_url : option string) (text : string) : M unit :=
  match response_url with
  | None => ret tt
  | Some u => if String.eqb u "" then ret tt else ([HttpPost u text], Ok tt)
  end.

(** The reply line of a quote that carries a price (lines 135-137, 164-167,
    186-189). *)
Definition price_line (t : string) (q : Quote) : Res string :=
  let '(price, change, pct, src) := q in
  if eq_str src "GLOBAL" then
    p <-! format_f 2 price ;;
    c <-! format_f 4 change ;;
    Ok (t ++ ": $" ++ p ++ " (Δ " ++ c ++ ", " ++ py_str pct ++ ")")
  else
    p <-! format_f 2 price ;;
    Ok (t ++ ": $" ++ p ++ " (latest daily close)").

(** [build_price_text(ticker)] *)
Definition build_price_text (env : Env) (ticker : string) : M string :=
  let t := upper ticker in
  if String.eqb (ALPHA_KEY env) "" then ret (t ++ ": Alpha Vantage API key missing.") else
  q <- fetch_quote env ticker 2800 ;;
  let '(price, _, _, _) := q in
  if eq_str price "RATE_LIMIT" then
    ret (t ++ ": Alpha Vantage free-tier rate limit hit. Try again in ~15–60s.")
  else if is_none price then ret (t ++ ": No quote returned for that symbol right now.")
  else lift (price_line t q).

(** ** HTTP routes (lines 140-242) *)

(** The form fields of a Slack slash command. *)
Record Form := {
  form_text : option string;
  form_response_url : option string
}.

(** The JSON reply [{"response_type": ..., "text": ...}]. *)
Record Reply := {
  response_type : string;
  text : string
}.

(** The daemon threads a handler starts, by their target. *)
Inductive Task :=
| PostPriceText (response_url : option string) (text : string)
| PostWatchlistText (response_url : option string).

(** [(request.form.get("text") or "")] *)
Definition form_text_or_empty (f : Form) : string :=
  match form_text f with Some s => s | None => "" end.

(** [q[0] in (None, "RATE_LIMIT")] *)
Definition none_or_rate_limit (v : PyVal) : bool := is_none v || eq_str v "RATE_LIMIT".

Definition working : Reply := {| response_type := "ephemeral"; text := "Working…" |}.

(** [cmd_price()]: the reply and the threads started. *)
Definition cmd_price (env : Env) (form : Form) : M (Reply * list Task) :=
  let txt := strip (form_text_or_empty form) in
  let response_url := form_response_url form in
  if String.eqb txt "" then
    ret ({| response_type := "in_channel"; text := "Usage: `/price AAPL`" |}, [])
  else
  (* Fast path (under 3s) *)
  q <- fetch_quote env txt 2400 ;;
  let '(price, _, _, _) := q in
  if negb (none_or_rate_limit price) then
    msg <- lift (price_line (upper txt) q) ;;
    ret ({| response_type := "in_channel"; text := msg |}, [])
  else
  (* Slow path / rate limit: reply later via response_url *)
  ret (working, [PostPriceText response_url txt]).

(** The watchlist, a Python [set] of strings: a list without duplicates. *)
Definition Store : Type := list string.

Definition mem (t : string) (w : Store) : bool := existsb (String.eqb t) w.

(** [watchlist.add(t)] *)
Definition set_add (t : string) (w : Store) : Store := if mem t w then w else (w ++ [t])%list.

(** [watchlist.remove(t)] (only called when [t in watchlist]) *)
Definition set_remove (t : string) (w : Store) : Store :=
  filter (fun x => negb (String.eqb t x)) w.

(** The loop body of lines 183-195 without the sleep. *)
Definition watchlist_line (env : Env) (t : string) : M string :=
  q <- fetch_quote env t 2800 ;;
  let '(price, _, _, _) := q in
  if negb (none_or_rate_limit price) then lift (price_line t q)
  else if eq_str price "RATE_LIMIT" then ret (t ++ ": rate limited (try later)")
  else ret (t ++ ": (no data)").

Fixpoint watchlist_lines (env : Env) (ts : list string) : M (list string) :=
  match ts with
  | [] => ret []
  | t :: r =>
      line <- watchlist_line env t ;;
      _ <- ([Sleep 400], Ok tt) ;;
      rest <- watchlist_lines env r ;;
      ret (line :: rest)
  end.

(** [build_watchlist_text()] *)
Definition build_watchlist_text (env : Env) (w : Store) : M string :=
  match w with
  | [] => ret "📭 Watchlist is empty."
  | _ =>
      lines <- watchlist_lines env (sorted w) ;;
      ret ("📊 Watchlist:" ++ nl ++ join nl lines)
  end.

(** Lines 220-224: each ticker in turn goes to [removed] if it is in the
    watchlist at that moment (and is removed), else to [missing]. *)
Fixpoint remove_loop (w : Store) (tickers : list string)
  : list string * list string * Store :=
  match tickers with
  | [] => ([], [], w)
  | t :: r =>
      if mem t w then
        let '(removed, missing, w') := remove_loop (set_remove t w) r in
        (t :: removed, missing, w')
      else
        let '(removed, missing, w') := remove_loop w r in
        (removed, t :: missing, w')
  end.

Definition in_channel (s : string) : Reply := {| response_type := "in_channel"; text := s |}.

(** [cmd_watchlist()]: the reply, the threads started and the watchlist
    after the command. *)
Definition cmd_watchlist (w : Store) (form : Form) : Reply * list Task * Store :=
  let parts := split_ws (strip (form_text_or_empty form)) in
  let response_url := form_response_url form in
  match parts with
  | [] => (working, [PostWatchlistText response_url], w)
  | action0 :: args =>
      let action := lower action0 in
      let tickers := map upper args in
      if String.eqb action "add" && negb (List.length tickers =? 0)%nat then
        (in_channel ("✅ Added: " ++ join ", " tickers),
         [], fold_left (fun acc t => set_add t acc) tickers w)
      else if String.eqb action "remove" && negb (List.length tickers =? 0)%nat then
        let '(removed, missing, w') := remove_loop w tickers in
        let removed_msg := "🗑️ Removed: " ++ join ", " removed in
        let missing_msg := "Not in list: " ++ join ", " missing in
        let msg := app (match removed with [] => [] | _ => [removed_msg] end)
                       (match missing with [] => [] | _ => [missing_msg] end) in
        (in_channel (match msg with [] => "No changes." | _ => join ". " msg end), [], w')
      else if String.eqb action "list" then (working, [PostWatchlistText response_url], w)
      else (in_channel "Invalid. Use: `/watchlist add TICKER [TICKER...]`, `/watchlist remove TICKER [TICKER...]`, `/watchlist list`", [], w)
  end.

(** What a started thread does; it reads the watchlist when it runs. *)
Definition run_task (env : Env) (w : Store) (task : Task) : M unit :=
  match task with
  | PostPriceText u txt => s <- build_price_text env txt ;; post_to_response_url u s
  | PostWatchlistText u => s <- build_watchlist_text env w ;; post_to_response_url u s
  end.

(** The live payload [fetch_quote] works on: the decoded body, or [{}] when
    the request or the decoding raised (lines 75-80). *)
Definition received_payload (o : option PyVal) : PyVal :=
  match o with Some j => j | None => PDict [] end.

(** The shapes of [fetch_quote]'s result listed in its docstring. *)
Definition quote_shape (q : Quote) : Prop :=
  q = rate_limited_quote \/ q = no_quote
  \/ (exists p c pct, q = (PFloat p, PFloat c, pct, PStr "GLOBAL"))
  \/ (exists p, q = (PFloat p, PFloat (FFin 0 0), PStr "—", PStr "DAILY")).

(** ** Concrete environments *)

Definition quote_payload (px : PyVal) : PyVal :=
  PDict [("Global Quote", PDict [("01. symbol", PStr "AAPL"); ("05. price", px);
                                 ("09. change", PStr "-1.2000");
                                 ("10. change percent", PStr "-0.63%")])].

(** Every request answers the same body. *)
Definition const_env (key : string) (body : option PyVal) : Env :=
  {| ALPHA_KEY := key; get_json := fun _ _ => body |}.

(** The live endpoint answers [live] for AAPL, the other requests [other]. *)
Definition aapl_env (live other : PyVal) : Env :=
  {| ALPHA_KEY := "demo";
     get_json := fun url _ =>
       if String.eqb url (av_query_url "GLOBAL_QUOTE" "AAPL" "demo") then Some live
       else Some other |}.

Definition rate_limit_body : PyVal :=
  PDict [("Note", PStr "Thank you for using Alpha Vantage! Our standard API call frequency is 5 calls per minute.")].

Definition error_body : PyVal :=
  PDict [("Error Message", PStr "Invalid API call. Please retry or visit the documentation.")].

Definition daily_body : PyVal :=
  PDict [("Time Series (Daily)",
          PDict [("2024-01-03", PDict [("4. close", PStr "185.6400")]);
                 ("2024-01-02", PDict [("4. close", PStr "185.1400")])])].

(** A daily series whose only close is negative. *)
Definition negative_daily_body : PyVal :=
  PDict [("Time Series (Daily)", PDict [("2024-01-03", PDict [("4. close", PStr "-3.5000")])])].

(** A watchlist listing whose ZZZZ live request answers a JSON array. *)
Definition batch_env : Env :=
  {| ALPHA_KEY := "demo";
     get_json := fun url _ =>
       if String.eqb url (av_query_url "GLOBAL_QUOTE" "AAPL" "demo")
       then Some (quote_payload (PStr "189.5000"))
       else if String.eqb url (av_query_url "GLOBAL_QUOTE" "ZZZZ" "demo")
       then Some (PList [])
       else Some error_body |}.

(** ** Lemmas about the monad *)

Lemma bind_ok {A B} (tr : list Event) (a : A) (f : A -> M B) :
  bind (tr, Ok a) f = ((tr ++ fst (f a))%list, snd (f a)).
Proof. unfold bind. destruct (f a). reflexivity. Qed.

Lemma bind_raise {A B} (tr : list Event) (e : PyExc) (f : A -> M B) :
  bind (tr, Raise e) f = (tr, Raise e).
Proof. reflexivity. Qed.

Lemma bind_inv {A B} (m : M A) (f : A -> M B) tr b :
  bind m f = (tr, Ok b) ->
  exists tr1 a, m = (tr1, Ok a) /\ f a = (skipn (List.length tr1) tr, Ok b)
                /\ tr = (tr1 ++ skipn (List.length tr1) tr)%list.
Proof.
  destruct m as [tr1 [a|e]]; simpl.
  - destruct (f a) as [tr2 r] eqn:Hf. intros H. inversion H; subst.
    exists tr1, a. rewrite skipn_app, skipn_all, Nat.sub_diag. simpl. auto.
  - intros H. discriminate H.
Qed.

(** ** Quote resolution *)

(** C2: when the live response is classified as rate-limited, [fetch_quote]
    returns [("RATE_LIMIT", None, None, None)] after that single request: the
    daily-close endpoint is never requested. *)
Theorem fetch_quote_rate_limited_skips_fallback (env : Env) (ticker : string)
    (timeout : Z) (j : PyVal) :
  get_json env (gq_url env (upper (strip ticker))) timeout = Some j ->
  _is_rate_limited j = Ok true ->
  fetch_quote env ticker timeout
  = ([HttpGet (gq_url env (upper (strip ticker))) timeout], Ok rate_limited_quote).
Proof.
  intros Hget Hrl. unfold fetch_quote, try_except, http_get_json.
  rewrite Hget. rewrite bind_ok. simpl. rewrite Hrl. reflexivity.
Qed.

Lemma fetch_quote_rate_limited_skips_fallback_witness :
  get_json (aapl_env rate_limit_body daily_body)
    (gq_url (aapl_env rate_limit_body daily_body) (upper (strip "AAPL"))) 2400
  = Some rate_limit_body
  /\ _is_rate_limited rate_limit_body = Ok true
  /\ fetch_quote (aapl_env rate_limit_body daily_body) "AAPL" 2400
     = ([HttpGet (gq_url (aapl_env rate_limit_body daily_body) (upper (strip "AAPL"))) 2400],
        Ok rate_limited_quote).
Proof.
  split; [vm_compute; reflexivity|]. split; [vm_compute; reflexivity|].
  apply fetch_quote_rate_limited_skips_fallback with (j := rate_limit_body);
    vm_compute; reflexivity.
Defined.

(** ** Characters of the renderings of numbers *)

Lemma list_ascii_of_string_append (s1 s2 : string) :
  list_ascii_of_string (s1 ++ s2) = (list_ascii_of_string s1 ++ list_ascii_of_string s2)%list.
Proof. induction s1; simpl; [reflexivity | now rewrite IHs1]. Qed.

Lemma contains_head_in (c : ascii) (r s : string) :
  contains (String c r) s = true -> In c (list_ascii_of_string s).
Proof.
  induction s as [|a s IH]; simpl; intros H.
  - discriminate H.
  - apply orb_true_iff in H. destruct H as [H|H].
    + destruct (ascii_dec c a); [subst; left; reflexivity | discriminate H].
    + right. apply IH. exact H.
Qed.

(** A character that is not a digit, a sign, a point or a letter of [e],
    [inf] or [nan]: it never occurs in the rendering of a number. *)
Abbreviation T_char := "T"%char.

Lemma digit_char_not_T (k : nat) : (k <= 9)%nat -> ascii_of_nat (48 + k) <> T_char.
Proof.
  intros Hk H. apply (f_equal nat_of_ascii) in H.
  rewrite nat_ascii_embedding in H by lia. change (nat_of_ascii T_char) with 84%nat in H. lia.
Qed.

Lemma digits_aux_not_T (fuel : nat) (n : Z) (acc : list ascii) :
  ~ In T_char acc -> ~ In T_char (digits_aux fuel n acc).
Proof.
  revert n acc. induction fuel as [|f IH]; intros n acc Hacc; simpl; [exact Hacc|].
  destruct (n <? 10) eqn:E.
  - intros [H|H]; [|exact (Hacc H)].
    apply Z.ltb_lt in E. unfold digit_char in H.
    revert H. apply digit_char_not_T. lia.
  - apply IH. intros [H|H]; [|exact (Hacc H)].
    unfold digit_char in H. revert H. apply digit_char_not_T.
    pose proof (Z.mod_pos_bound n 10). lia.
Qed.

Lemma digits_not_T (n : Z) : ~ In T_char (digits n).
Proof. apply digits_aux_not_T. simpl. tauto. Qed.

Lemma zeros_not_T (n : nat) : ~ In T_char (zeros n).
Proof.
  unfold zeros. intros H. apply repeat_spec in H. discriminate H.
Qed.

Lemma firstn_not_T (k : nat) (l : list ascii) : ~ In T_char l -> ~ In T_char (firstn k l).
Proof.
  intros H H'. apply H. rewrite <- (firstn_skipn k l). apply in_or_app. left. exact H'.
Qed.

Lemma skipn_not_T (k : nat) (l : list ascii) : ~ In T_char l -> ~ In T_char (skipn k l).
Proof.
  intros H H'. apply H. rewrite <- (firstn_skipn k l). apply in_or_app. right. exact H'.
Qed.

Lemma app_not_T (l1 l2 : list ascii) :
  ~ In T_char l1 -> ~ In T_char l2 -> ~ In T_char (l1 ++ l2)%list.
Proof. intros H1 H2 H. apply in_app_or in H. tauto. Qed.

(** A literal list of characters other than [T]. *)
Ltac not_T_literal :=
  let H := fresh "H" in
  intros H; simpl in H; repeat (destruct H as [H|H]; [discriminate H|]); destruct H.

Lemma int_repr_not_T (z : Z) : ~ In T_char (list_ascii_of_string (int_repr z)).
Proof.
  unfold int_repr. destruct (z <? 0); simpl;
    rewrite list_ascii_of_string_of_list_ascii.
  - intros [H|H]; [discriminate H | exact (digits_not_T _ H)].
  - apply digits_not_T.
Qed.

Lemma float_repr_not_T (f : PyFloat) : ~ In T_char (list_ascii_of_string (float_repr f)).
Proof.
  destruct f as [m e| | |]; try not_T_literal.
  unfold float_repr.
  destruct (m =? 0); [not_T_literal|].
  rewrite list_ascii_of_string_append, list_ascii_of_string_of_list_ascii.
  apply app_not_T; [destruct (m <? 0); not_T_literal|].
  pose proof (digits_not_T (Z.abs m)) as Hd.
  repeat match goal with
  | |- context [if ?b then _ else _] => destruct b
  end;
  repeat (apply app_not_T || apply firstn_not_T || apply skipn_not_T);
  try apply zeros_not_T; try apply digits_not_T; try exact Hd; try not_T_literal.
  all: first
    [ intros [H|H]; [discriminate H | exact (digits_not_T _ H)]
    | revert Hd; destruct (digits (Z.abs m)) as [|d [|d' rest]]; intros Hd H; simpl in *;
      [ exact H
      | destruct H as [H|H]; [apply Hd; left; exact H | exact H]
      | destruct H as [H|[H|H]]; [apply Hd; left; exact H | discriminate H | apply Hd; right; exact H] ] ].
Qed.

(** [_is_rate_limited] holds of a payload with the key [Note] and of a
    payload whose [str] carries the notice; the notice never occurs in the
    rendering of a scalar, so [in] never raises there. *)
Lemma is_rate_limited_of_note_or_notice (j : PyVal) :
  (exists kvs, j = PDict kvs /\ In "Note" (map fst kvs))
  \/ contains rate_limit_notice (py_str j) = true ->
  _is_rate_limited j = Ok true.
Proof.
  intros [[kvs [-> Hin]] | H].
  - unfold _is_rate_limited. simpl.
    assert (Hex : existsb (fun kv => String.eqb (fst kv) "Note") kvs = true).
    { apply existsb_exists. apply in_map_iff in Hin. destruct Hin as [[k v] [Hk Hkv]].
      exists (k, v). simpl in *. subst. split; [exact Hkv | apply String.eqb_refl]. }
    rewrite Hex. reflexivity.
  - unfold rate_limit_notice in H.
    destruct j as [| [|] | z | f | s | l | kvs]; try (vm_compute in H; discriminate H).
    + apply contains_head_in in H. exfalso. exact (int_repr_not_T z H).
    + apply contains_head_in in H. exfalso. exact (float_repr_not_T f H).
    + unfold _is_rate_limited, rate_limit_notice. simpl.
      destruct (contains "Note" s); [reflexivity|]. simpl in *. rewrite H. reflexivity.
    + unfold _is_rate_limited, rate_limit_notice. simpl.
      destruct (existsb _ l); [reflexivity|]. simpl in *. rewrite H. reflexivity.
    + unfold _is_rate_limited, rate_limit_notice. simpl.
      destruct (existsb _ kvs); [reflexivity|]. simpl in *. rewrite H. reflexivity.
Qed.

(** C10: a live payload that has the key ["Note"], or whose [str] contains
    "Thank you for using Alpha Vantage", is answered with
    [("RATE_LIMIT", None, None, None)] before any price is read, even when
    it also carries a valid Global Quote price. *)
Theorem fetch_quote_note_or_notice_is_rate_limited (env : Env) (ticker : string)
    (timeout : Z) (j : PyVal) :
  get_json env (gq_url env (upper (strip ticker))) timeout = Some j ->
  (exists kvs, j = PDict kvs /\ In "Note" (map fst kvs))
  \/ contains rate_limit_notice (py_str j) = true ->
  fetch_quote env ticker timeout
  = ([HttpGet (gq_url env (upper (strip ticker))) timeout], Ok rate_limited_quote).
Proof.
  intros Hget Hj. apply is_rate_limited_of_note_or_notice in Hj.
  unfold fetch_quote, try_except, http_get_json.
  rewrite Hget, bind_ok. simpl. rewrite Hj. reflexivity.
Qed.

(** A Global Quote with a valid price next to a [Note] key. *)
Definition note_and_price_body : PyVal :=
  PDict [("Note", PStr "Please consider a premium plan.");
         ("Global Quote", PDict [("05. price", PStr "189.5000")])].

Lemma fetch_quote_note_or_notice_is_rate_limited_witness :
  fetch_quote (aapl_env note_and_price_body daily_body) "AAPL" 2800
  = ([HttpGet (gq_url (aapl_env note_and_price_body daily_body) (upper (strip "AAPL"))) 2800],
     Ok rate_limited_quote).
Proof.
  apply fetch_quote_note_or_notice_is_rate_limited with (j := note_and_price_body).
  - vm_compute. reflexivity.
  - left. exists [("Note", PStr "Please consider a premium plan.");
                  ("Global Quote", PDict [("05. price", PStr "189.5000")])].
    split; [reflexivity | simpl; left; reflexivity].
Defined.

(** ** Shapes of the results *)

(** Case analysis on every [match] of the goal, innermost first. *)
Ltac split_matches :=
  repeat match goal with
  | |- context [match ?x with _ => _ end] =>
      lazymatch x with
      | context [match _ with _ => _ end] => fail
      | _ => destruct x eqn:?
      end
  end.

Lemma daily_close_shape (env : Env) (t : string) (timeout : Z) tr src px :
  _daily_close env t timeout = (tr, Ok (src, px)) ->
  (src = RATE_LIMIT /\ px = PNone) \/ px = PNone
  \/ (src = PStr "DAILY" /\ exists f, px = PFloat f).
Proof.
  unfold _daily_close, try_except, http_get_json, bind, lift, ret, parse_daily, rbind.
  split_matches; simpl; intros H; inversion H; subst; auto.
  all: right; right; eauto.
Qed.

Lemma daily_close_trace (env : Env) (t : string) (timeout : Z) :
  fst (_daily_close env t timeout)
  = [HttpGet (av_query_url "TIME_SERIES_DAILY" t (ALPHA_KEY env)) timeout].
Proof.
  unfold _daily_close, try_except, http_get_json, bind, lift, ret, parse_daily, rbind.
  split_matches; reflexivity.
Qed.

Lemma fetch_quote_shape (env : Env) (ticker : string) (timeout : Z) tr q :
  fetch_quote env ticker timeout = (tr, Ok q) -> quote_shape q.
Proof.
  unfold fetch_quote, daily_fallback, global_quote, try_except, http_get_json, bind, lift, ret.
  split_matches; simpl; intros H; inversion H; subst; clear H;
    unfold quote_shape; auto 6.
  all: try solve [do 2 right; left; eauto].
  all: match goal with
      | Hd : _daily_close _ _ _ = (_, Ok (?s, ?p)), Hn : negb (is_none ?p) = true |- _ =>
          destruct (daily_close_shape _ _ _ _ _ _ Hd) as [[_ Hp]|[Hp|[_ [f Hp]]]];
          subst p; [discriminate Hn | discriminate Hn | do 3 right; eauto]
      end.
Qed.

(** C3 (defect): a live response whose body is a JSON array makes
    [fetch_quote] raise [AttributeError] ([list] has no [get], line 89):
    the exception crosses its boundary instead of a result tuple. *)
Theorem fetch_quote_raises_on_array_body :
  fetch_quote (aapl_env (PList []) error_body) "AAPL" 2400
  = ([HttpGet (av_query_url "GLOBAL_QUOTE" "AAPL" "demo") 2400], Raise AttributeError).
Proof. vm_compute. reflexivity. Qed.

(** C4, refuted: a live price of ["-1.5000"] or ["inf"] comes back as the
    [Live] price unchanged, negative or infinite, and a daily close of
    ["-3.5000"] comes back as a negative [DailyClose] price. *)
Lemma fetch_quote_negative_or_infinite_price :
  snd (fetch_quote (aapl_env (quote_payload (PStr "-1.5000")) error_body) "AAPL" 2400)
  = Ok (PFloat (FFin (-15) (-1)), PFloat (FFin (-12) (-1)), PStr "-0.63%", PStr "GLOBAL")
  /\ snd (fetch_quote (aapl_env (quote_payload (PStr "inf")) error_body) "AAPL" 2400)
  = Ok (PFloat FInf, PFloat (FFin (-12) (-1)), PStr "-0.63%", PStr "GLOBAL")
  /\ snd (fetch_quote (aapl_env (PDict []) negative_daily_body) "AAPL" 2400)
  = Ok (PFloat (FFin (-35) (-1)), PFloat (FFin 0 0), PStr "—", PStr "DAILY").
Proof. split; [|split]; vm_compute; reflexivity. Qed.


(** ** The daily-close fallback *)

Lemma live_request (env : Env) (t : string) (timeout : Z) :
  try_except (http_get_json env (gq_url env t) timeout) (fun _ => ret (PDict []))
  = ([HttpGet (gq_url env t) timeout],
     Ok (received_payload (get_json env (gq_url env t) timeout))).
Proof.
  unfold try_except, http_get_json. destruct (get_json env (gq_url env t) timeout); reflexivity.
Qed.

Lemma is_info_or_error_dict (kvs : list (string * PyVal)) :
  exists b, _is_info_or_error (PDict kvs) = Ok b.
Proof.
  unfold _is_info_or_error. simpl. destruct (existsb _ kvs); simpl; eauto.
Qed.

Lemma get_either_dict (kvs : list (string * PyVal)) (k1 k2 : string) :
  exists v, get_either (PDict kvs) k1 k2 = Ok v.
Proof.
  unfold get_either. simpl. destruct (truthy _); simpl; eauto.
Qed.

Lemma daily_fallback_trace (env : Env) (t : string) (timeout : Z) :
  fst (daily_fallback env t timeout)
  = [HttpGet (av_query_url "TIME_SERIES_DAILY" t (ALPHA_KEY env)) (Z.max 2000 timeout)].
Proof.
  pose proof (daily_close_trace env t (Z.max 2000 timeout)) as Htr.
  unfold daily_fallback, bind.
  destruct (_daily_close env t (Z.max 2000 timeout)) as [tr [[src px]|e]]; simpl in *;
    subst tr; [|reflexivity].
  split_matches; match goal with H : _ = (?l, _) |- _ => inversion H; reflexivity end.
Qed.

(** C6 (defect, the one of C3): a live payload without a usable price is
    not always handed to the fallback.  When its ["Global Quote"] is the
    string ["N/A"], [quote.get] (line 90, outside any [try]) raises
    [AttributeError]; when the body is JSON [null], ["Note" in payload]
    raises [TypeError].  Either error escapes after the single live request,
    and the daily-close endpoint is never requested. *)
Theorem fetch_quote_unusable_quote_raises :
  fetch_quote (aapl_env (PDict [("Global Quote", PStr "N/A")]) daily_body) "AAPL" 2400
  = ([HttpGet (av_query_url "GLOBAL_QUOTE" "AAPL" "demo") 2400], Raise AttributeError)
  /\ fetch_quote (aapl_env PNone daily_body) "AAPL" 2400
  = ([HttpGet (av_query_url "GLOBAL_QUOTE" "AAPL" "demo") 2400], Raise TypeError).
Proof. split; vm_compute; reflexivity. Qed.

(** When the live payload (or [{}] after a failed request) is not
    rate-limited and its Global Quote is a dict (or absent),
    a missing price or one [float()] rejects leads to exactly one
    daily-close request, and the result is the fallback's: the bad price is
    never raised. *)
Theorem fetch_quote_missing_price_falls_back_once (env : Env) (ticker : string)
    (timeout : Z) (qkvs : list (string * PyVal)) (px : PyVal) :
  _is_rate_limited (received_payload (get_json env (gq_url env (upper (strip ticker))) timeout))
  = Ok false ->
  quote_of (received_payload (get_json env (gq_url env (upper (strip ticker))) timeout))
  = Ok (PDict qkvs) ->
  price_of (PDict qkvs) = Ok px ->
  is_none px = true \/ (exists e, py_float px = Raise e) ->
  fetch_quote env ticker timeout
  = (HttpGet (gq_url env (upper (strip ticker))) timeout
       :: fst (daily_fallback env (upper (strip ticker)) timeout),
     snd (daily_fallback env (upper (strip ticker)) timeout))
  /\ fst (daily_fallback env (upper (strip ticker)) timeout)
     = [HttpGet (av_query_url "TIME_SERIES_DAILY" (upper (strip ticker)) (ALPHA_KEY env))
                (Z.max 2000 timeout)].
Proof.
  intros Hrl Hq Hp Hpx. split; [|apply daily_fallback_trace].
  unfold fetch_quote. rewrite live_request, bind_ok.
  set (j := received_payload (get_json env (gq_url env (upper (strip ticker))) timeout)) in *.
  assert (Hj : exists kvs, j = PDict kvs).
  { destruct j; try discriminate Hq. eauto. }
  destruct Hj as [kvs Hj]. rewrite Hj in *.
  destruct (is_info_or_error_dict kvs) as [b Hb].
  destruct (get_either_dict qkvs "09. change" "09.change") as [chg Hc].
  destruct (get_either_dict qkvs "10. change percent" "10.change percent") as [pct Hpc].
  assert (Hg : global_quote px chg pct = ([], Ok None)).
  { unfold global_quote, try_except. destruct Hpx as [Hn | [e He]].
    - rewrite Hn. reflexivity.
    - destruct (is_none px); [reflexivity|]. unfold lift. rewrite He. reflexivity. }
  unfold lift. rewrite Hrl, bind_ok. cbn [fst snd].
  rewrite Hb, bind_ok. cbn [fst snd].
  rewrite Hq, bind_ok. cbn [fst snd].
  rewrite Hp, bind_ok. cbn [fst snd].
  rewrite Hc, bind_ok. cbn [fst snd].
  rewrite Hpc, bind_ok. cbn [fst snd].
  rewrite Hg, bind_ok. cbn [fst snd app].
  destruct (daily_fallback env (upper (strip ticker)) timeout); reflexivity.
Qed.

Lemma fetch_quote_missing_price_falls_back_once_witness :
  fetch_quote (aapl_env (PDict [("Global Quote", PDict [("05. price", PStr "n/a")])])
                        daily_body) "AAPL" 2400
  = (HttpGet (gq_url (aapl_env (PDict [("Global Quote", PDict [("05. price", PStr "n/a")])])
                               daily_body) (upper (strip "AAPL"))) 2400
       :: fst (daily_fallback (aapl_env (PDict [("Global Quote", PDict [("05. price", PStr "n/a")])])
                                        daily_body) (upper (strip "AAPL")) 2400),
     snd (daily_fallback (aapl_env (PDict [("Global Quote", PDict [("05. price", PStr "n/a")])])
                                   daily_body) (upper (strip "AAPL")) 2400)).
Proof.
  apply (fetch_quote_missing_price_falls_back_once _ _ _ [("05. price", PStr "n/a")] (PStr "n/a")).
  - vm_compute. reflexivity.
  - vm_compute. reflexivity.
  - vm_compute. reflexivity.
  - right. exists ValueError. vm_compute. reflexivity.
Defined.

(** ** Where a returned price comes from *)

Lemma daily_close_price_source (env : Env) (t : string) (timeout : Z) src px :
  snd (_daily_close env t timeout) = Ok (src, px) -> is_none px = false ->
  exists j ts k day cl f,
    get_json env (av_query_url "TIME_SERIES_DAILY" t (ALPHA_KEY env)) timeout = Some j
    /\ py_get j "Time Series (Daily)" = Ok (PDict ts)
    /\ last_item (sorted (map fst ts)) = Ok k
    /\ py_getitem (PDict ts) k = Ok day
    /\ py_getitem day "4. close" = Ok cl
    /\ py_float cl = Ok f
    /\ px = PFloat f.
Proof.
  unfold _daily_close, try_except, http_get_json, lift, parse_daily, rbind, bind, ret.
  cbn beta iota zeta.
  split_matches; cbn; intros H Hn; inversion H; subst; try discriminate Hn.
  all: do 6 eexists; repeat split; eassumption.
Qed.

Lemma daily_fallback_source (env : Env) (t : string) (timeout : Z) p c pct src :
  snd (daily_fallback env t timeout) = Ok (p, c, pct, src) ->
  (src = PStr "DAILY" /\ is_none p = false
   /\ exists s0, snd (_daily_close env t (Z.max 2000 timeout)) = Ok (s0, p))
  \/ (p, c, pct, src) = rate_limited_quote \/ (p, c, pct, src) = no_quote.
Proof.
  unfold daily_fallback, bind.
  destruct (_daily_close env t (Z.max 2000 timeout)) as [tr [[s0 px]|e]]; [|cbn; discriminate].
  unfold ret. destruct (eq_str s0 "RATE_LIMIT"); cbn; intros H; inversion H; subst;
    [right; left; reflexivity|].
  destruct (negb (is_none px)) eqn:En; cbn in H; inversion H; subst.
  - left. split; [reflexivity|]. split; [destruct (is_none p); [discriminate En|reflexivity]|].
    eexists; reflexivity.
  - right; right; reflexivity.
Qed.

Lemma fetch_quote_price_source (env : Env) (ticker : string) (timeout : Z) p c pct src :
  snd (fetch_quote env ticker timeout) = Ok (p, c, pct, src) ->
  (src = PStr "GLOBAL"
   /\ exists q px f,
        quote_of (received_payload (get_json env (gq_url env (upper (strip ticker))) timeout)) = Ok q
        /\ price_of q = Ok px /\ is_none px = false /\ py_float px = Ok f /\ p = PFloat f)
  \/ (src = PStr "DAILY" /\ is_none p = false
      /\ exists s0, snd (_daily_close env (upper (strip ticker)) (Z.max 2000 timeout)) = Ok (s0, p))
  \/ (p, c, pct, src) = rate_limited_quote \/ (p, c, pct, src) = no_quote.
Proof.
  unfold fetch_quote. rewrite live_request, bind_ok. cbn [snd].
  set (t := upper (strip ticker)).
  set (j := received_payload (get_json env (gq_url env t) timeout)).
  unfold global_quote, try_except, lift, bind, ret. cbn beta iota zeta.
  split_matches; cbn; intros H; try (inversion H; subst; clear H).
  all: try solve [right; right; left; reflexivity].
  all: try solve [left; split; [reflexivity|]; do 3 eexists;
                   repeat split; first [reflexivity | eassumption]].
  all: match goal with
       | Hr : ?r = Ok _, Hd : daily_fallback _ _ _ = (_, ?r) |- _ =>
           subst r;
           pose proof (daily_fallback_source env t timeout p c pct src) as Hs;
           rewrite Hd in Hs; cbn [snd] in Hs;
           destruct (Hs eq_refl) as [Hdaily | Hother];
           [right; left; exact Hdaily | right; right; exact Hother]
       end.
Qed.

(** C4, as the code has it: the price of a [Live] or [DailyClose] result is
    always a float, and it is Python's [float()] of the upstream field with
    no range check.  (a) Every returned quote has one of the documented
    shapes, so a price is a float.  (b) A Global Quote price string [s] is
    returned as [float(s)].  (c) A [Live] price is [float()] of the price
    field the code reads from the live payload.  (d) A [DailyClose] price is
    [float()] of the ["4. close"] field of the day the code picks from the
    daily series.  Whatever [float()] gives, negative, infinite or NaN
    included, is the price. *)
Theorem fetch_quote_price_is_unchecked_float :
  (forall (env : Env) (ticker : string) (timeout : Z) tr q,
     fetch_quote env ticker timeout = (tr, Ok q) -> quote_shape q)
  /\ (forall (env : Env) (ticker : string) (timeout : Z) (s : string) (f : PyFloat),
     let payload := PDict [("Global Quote", PDict [("05. price", PStr s)])] in
     get_json env (gq_url env (upper (strip ticker))) timeout = Some payload ->
     _is_rate_limited payload = Ok false ->
     float_of_string s = Some f ->
     fetch_quote env ticker timeout
     = ([HttpGet (gq_url env (upper (strip ticker))) timeout],
        Ok (PFloat f, PFloat (FFin 0 0), PStr "0.00%", PStr "GLOBAL")))
  /\ (forall (env : Env) (ticker : string) (timeout : Z) tr p c pct,
     fetch_quote env ticker timeout = (tr, Ok (p, c, pct, PStr "GLOBAL")) ->
     exists q px f,
       quote_of (received_payload (get_json env (gq_url env (upper (strip ticker))) timeout)) = Ok q
       /\ price_of q = Ok px /\ py_float px = Ok f /\ p = PFloat f)
  /\ (forall (env : Env) (ticker : string) (timeout : Z) tr p c pct,
     fetch_quote env ticker timeout = (tr, Ok (p, c, pct, PStr "DAILY")) ->
     exists j ts k day cl f,
       get_json env (av_query_url "TIME_SERIES_DAILY" (upper (strip ticker)) (ALPHA_KEY env))
                (Z.max 2000 timeout) = Some j
       /\ py_get j "Time Series (Daily)" = Ok (PDict ts)
       /\ last_item (sorted (map fst ts)) = Ok k
       /\ py_getitem (PDict ts) k = Ok day
       /\ py_getitem day "4. close" = Ok cl
       /\ py_float cl = Ok f
       /\ p = PFloat f).
Proof.
  split; [exact fetch_quote_shape|]. split; [|split].
  - intros env ticker timeout s f payload Hget Hrl Hf.
  assert (Hs : s <> "") by (intros ->; discriminate Hf).
  subst payload.
  unfold fetch_quote, try_except, http_get_json. rewrite Hget, bind_ok.
  cbn [fst snd ret lift bind]. rewrite Hrl. simpl.
  unfold global_quote, quote_of, price_of, get_either. simpl.
  destruct (String.eqb s "") eqn:Es; [apply String.eqb_eq in Es; contradiction|].
  simpl. rewrite Hf. reflexivity.
  - intros env ticker timeout tr p c pct H.
    apply (f_equal snd) in H. cbn [snd] in H.
    destruct (fetch_quote_price_source _ _ _ _ _ _ _ H)
      as [[_ [q [px [f [Hq [Hp [_ [Hf Hpf]]]]]]]] | [[Hd _] | [Hr | Hn]]].
    + exists q, px, f. auto.
    + discriminate Hd.
    + discriminate Hr.
    + discriminate Hn.
  - intros env ticker timeout tr p c pct H.
    apply (f_equal snd) in H. cbn [snd] in H.
    destruct (fetch_quote_price_source _ _ _ _ _ _ _ H)
      as [[Hg _] | [[_ [Hn [s0 Hd]]] | [Hr | Hnq]]].
    + discriminate Hg.
    + exact (daily_close_price_source _ _ _ _ _ Hd Hn).
    + discriminate Hr.
    + discriminate Hnq.
Qed.

Lemma fetch_quote_price_is_unchecked_float_witness :
  fetch_quote (aapl_env (PDict [("Global Quote", PDict [("05. price", PStr "-1.5000")])])
                        error_body) "AAPL" 2400
  = ([HttpGet (gq_url (aapl_env (PDict [("Global Quote", PDict [("05. price", PStr "-1.5000")])])
                                error_body) (upper (strip "AAPL"))) 2400],
     Ok (PFloat (FFin (-15) (-1)), PFloat (FFin 0 0), PStr "0.00%", PStr "GLOBAL"))
  /\ exists j ts k day cl f,
       get_json (aapl_env (PDict []) negative_daily_body)
                (av_query_url "TIME_SERIES_DAILY" (upper (strip "AAPL")) "demo") (Z.max 2000 2400)
       = Some j
       /\ py_get j "Time Series (Daily)" = Ok (PDict ts)
       /\ last_item (sorted (map fst ts)) = Ok k
       /\ py_getitem (PDict ts) k = Ok day
       /\ py_getitem day "4. close" = Ok cl
       /\ py_float cl = Ok f
       /\ PFloat (FFin (-35) (-1)) = PFloat f.
Proof.
  split.
  - apply (proj1 (proj2 fetch_quote_price_is_unchecked_float) _ _ _ "-1.5000" (FFin (-15) (-1)));
      vm_compute; reflexivity.
  - apply (proj2 (proj2 (proj2 fetch_quote_price_is_unchecked_float))
             (aapl_env (PDict []) negative_daily_body) "AAPL" 2400
             [HttpGet (av_query_url "GLOBAL_QUOTE" "AAPL" "demo") 2400;
              HttpGet (av_query_url "TIME_SERIES_DAILY" "AAPL" "demo") 2400]
             (PFloat (FFin (-35) (-1))) (PFloat (FFin 0 0)) (PStr "—")).
    vm_compute. reflexivity.
Defined.

(** ** The latest day of a daily series *)

Lemma string_leb_refl (s : string) : String.leb s s = true.
Proof. destruct (String.leb_total s s); assumption. Qed.

Lemma string_leb_trans (a b c : string) :
  String.leb a b = true -> String.leb b c = true -> String.leb a c = true.
Proof.
  revert b c. induction a as [|x a IH]; intros [|y b] [|z c]; try reflexivity;
    try (intros H; discriminate H); try (intros _ H; discriminate H).
  unfold String.leb. simpl. unfold Ascii.compare.
  destruct (N.compare_spec (N_of_ascii x) (N_of_ascii y)) as [Hxy|Hxy|Hxy];
  destruct (N.compare_spec (N_of_ascii y) (N_of_ascii z)) as [Hyz|Hyz|Hyz];
  destruct (N.compare_spec (N_of_ascii x) (N_of_ascii z)) as [Hxz|Hxz|Hxz];
  try lia; try reflexivity; try (intros H; discriminate H); try (intros _ H; discriminate H).
  apply IH.
Qed.

Lemma last_item_last (l : list string) :
  l <> [] -> last_item l = Ok (last l "").
Proof.
  intros Hl. unfold last_item.
  rewrite (app_removelast_last "" Hl) at 1. rewrite rev_app_distr. reflexivity.
Qed.

Lemma insert_sorted_in (x y : string) (l : list string) :
  In y (insert_sorted x l) <-> x = y \/ In y l.
Proof.
  induction l as [|z l IH]; simpl; [tauto|].
  destruct (String.leb x z); simpl; [tauto|]. rewrite IH. tauto.
Qed.

Lemma sorted_in (y : string) (l : list string) : In y (sorted l) <-> In y l.
Proof.
  induction l as [|x l IH]; simpl; [tauto|]. rewrite insert_sorted_in, IH. tauto.
Qed.

Lemma last_cons_nonempty (a : string) (l : list string) (d : string) :
  l <> [] -> last (a :: l) d = last l d.
Proof. destruct l; [contradiction | reflexivity]. Qed.

Lemma insert_sorted_nonempty (x : string) (l : list string) : insert_sorted x l <> [].
Proof. destruct l; simpl; [discriminate|]. destruct (String.leb x s); discriminate. Qed.

(** Inserted before some element, [x] leaves the last element in place. *)
Lemma last_insert_sorted_inner (x : string) (l : list string) :
  (exists y, In y l /\ String.leb x y = true) ->
  last (insert_sorted x l) "" = last l "".
Proof.
  induction l as [|z l IH]; intros [y [Hy Hxy]]; [destruct Hy|].
  change (insert_sorted x (z :: l))
    with (if String.leb x z then x :: z :: l else z :: insert_sorted x l).
  destruct (String.leb x z) eqn:Hxz; [reflexivity|].
  destruct Hy as [<-|Hy]; [congruence|].
  assert (Hl : l <> []) by (intros ->; destruct Hy).
  rewrite last_cons_nonempty by apply insert_sorted_nonempty.
  rewrite last_cons_nonempty by exact Hl.
  apply IH. eauto.
Qed.

Lemma insert_sorted_at_end (x : string) (l : list string) :
  (forall y, In y l -> String.leb x y = false) -> insert_sorted x l = (l ++ [x])%list.
Proof.
  induction l as [|z l IH]; intros H; simpl; [reflexivity|].
  rewrite (H z (or_introl eq_refl)). f_equal. apply IH. intros y Hy. apply H. right. exact Hy.
Qed.

(** [sorted(keys)[-1]] is the greatest key. *)
Lemma sorted_last_is_max (l : list string) :
  l <> [] ->
  exists k, last_item (sorted l) = Ok k /\ In k l
            /\ (forall y, In y l -> String.leb y k = true).
Proof.
  induction l as [|x r IH]; intros Hl; [contradiction|].
  assert (Hne : sorted (x :: r) <> []) by apply insert_sorted_nonempty.
  rewrite last_item_last by exact Hne.
  destruct r as [|x' r'].
  - exists x. simpl. split; [reflexivity|]. split; [left; reflexivity|].
    intros y [<-|[]]. apply string_leb_refl.
  - destruct IH as [k [Hk [Hin Hmax]]]; [discriminate|].
    assert (Hs : sorted (x' :: r') <> []) by apply insert_sorted_nonempty.
    rewrite last_item_last in Hk by exact Hs. injection Hk as Hk.
    change (sorted (x :: x' :: r')) with (insert_sorted x (sorted (x' :: r'))).
    destruct (String.leb x k) eqn:Hxk.
    + exists k. rewrite last_insert_sorted_inner.
      * split; [f_equal; exact Hk|]. split; [right; exact Hin|].
        intros y [<-|Hy]; [exact Hxk | apply Hmax; exact Hy].
      * exists k. split; [apply sorted_in; exact Hin | exact Hxk].
    + exists x. rewrite insert_sorted_at_end.
      * rewrite last_last. split; [reflexivity|]. split; [left; reflexivity|].
        assert (Hkx : String.leb k x = true)
          by (destruct (String.leb_total k x); congruence).
        intros y [<-|Hy]; [apply string_leb_refl|].
        apply (string_leb_trans _ k); [apply Hmax; exact Hy | exact Hkx].
      * intros y Hy. apply (proj1 (sorted_in y _)) in Hy. destruct (String.leb x y) eqn:Hxy; [|reflexivity].
        exfalso. assert (String.leb x k = true)
          by (apply (string_leb_trans _ y); [exact Hxy | apply Hmax; exact Hy]).
        congruence.
Qed.

(** C7: for a daily-close data response (a dict that is neither a rate-limit
    notice nor an information/error payload), a non-empty time series yields
    the close of its greatest date key (the close that [float()] reads, or
    no data when that day's close is unreadable), and an absent, empty or
    non-dict series yields no data. *)
Theorem daily_close_latest_day (env : Env) (ticker : string) (timeout : Z)
    (kvs : list (string * PyVal)) :
  get_json env (av_query_url "TIME_SERIES_DAILY" ticker (ALPHA_KEY env)) timeout
  = Some (PDict kvs) ->
  _is_rate_limited (PDict kvs) = Ok false ->
  _is_info_or_error (PDict kvs) = Ok false ->
  match dict_lookup "Time Series (Daily)" kvs with
  | Some (PDict ((_ :: _) as ts)) =>
      exists k, In k (map fst ts)
        /\ (forall k', In k' (map fst ts) -> String.leb k' k = true)
        /\ _daily_close env ticker timeout
           = ([HttpGet (av_query_url "TIME_SERIES_DAILY" ticker (ALPHA_KEY env)) timeout],
              Ok (match (day <-! py_getitem (PDict ts) k ;;
                         c <-! py_getitem day "4. close" ;;
                         py_float c) with
                  | Ok f => (PStr "DAILY", PFloat f)
                  | Raise _ => (PNone, PNone)
                  end))
  | _ =>
      _daily_close env ticker timeout
      = ([HttpGet (av_query_url "TIME_SERIES_DAILY" ticker (ALPHA_KEY env)) timeout],
         Ok (PNone, PNone))
  end.
Proof.
  intros Hget Hrl Hie.
  unfold _daily_close, http_get_json. rewrite Hget.
  cbn [bind try_except ret lift fst snd app].
  rewrite Hrl. cbn [bind try_except ret lift fst snd app].
  rewrite Hie. cbn [bind try_except ret lift fst snd app py_get].
  destruct (dict_lookup "Time Series (Daily)" kvs) as [ts|]; [|reflexivity].
  destruct ts as [| | | | | | [|[k0 v0] ts]]; try reflexivity.
  destruct (sorted_last_is_max (map fst ((k0, v0) :: ts))) as [k [Hlast [Hin Hmax]]];
    [discriminate|].
  exists k. split; [exact Hin|]. split; [exact Hmax|].
  cbn [truthy negb]. unfold parse_daily. rewrite Hlast. cbn [rbind].
  destruct (py_getitem (PDict ((k0, v0) :: ts)) k) as [day|e]; [|reflexivity]. cbn [rbind].
  destruct (py_getitem day "4. close") as [c|e]; [|reflexivity]. cbn [rbind].
  destruct (py_float c); reflexivity.
Qed.

Lemma daily_close_latest_day_witness :
  _daily_close (const_env "demo" (Some daily_body)) "AAPL" 2800
  = ([HttpGet (av_query_url "TIME_SERIES_DAILY" "AAPL" "demo") 2800],
     Ok (PStr "DAILY", PFloat (FFin 18564 (-2)))).
Proof.
  pose proof (daily_close_latest_day (const_env "demo" (Some daily_body)) "AAPL" 2800
                [("Time Series (Daily)",
                  PDict [("2024-01-03", PDict [("4. close", PStr "185.6400")]);
                         ("2024-01-02", PDict [("4. close", PStr "185.1400")])])]
                eq_refl eq_refl eq_refl) as H.
  destruct H as [k [Hin [Hmax Hd]]].
  rewrite Hd. simpl in Hin. destruct Hin as [<-|[<-|[]]].
  - vm_compute. reflexivity.
  - exfalso. specialize (Hmax "2024-01-03" (or_introl eq_refl)). vm_compute in Hmax.
    discriminate Hmax.
Defined.

(** ** The /price coordinator *)

Definition price_form (txt : string) : Form :=
  {| form_text := Some txt; form_response_url := Some "https://hooks.slack.com/commands/T1/B1" |}.

(** C1, refuted: an [Unavailable] fast-path result (no quote from either
    endpoint) is not answered immediately: the reply is the ephemeral
    acknowledgment and a background thread is started. *)
Lemma cmd_price_unavailable_is_deferred :
  snd (fetch_quote (const_env "demo" (Some error_body)) "ZZZZ" 2400) = Ok no_quote
  /\ snd (cmd_price (const_env "demo" (Some error_body)) (price_form "ZZZZ"))
     = Ok (working, [PostPriceText (Some "https://hooks.slack.com/commands/T1/B1") "ZZZZ"]).
Proof. split; vm_compute; reflexivity. Qed.

Lemma price_line_of_price (t : string) (q : Quote) :
  quote_shape q -> none_or_rate_limit (fst (fst (fst q))) = false ->
  exists msg, price_line t q = Ok msg.
Proof.
  intros [->|[->|[[p [c [pct ->]]]|[p ->]]]] Hn; try discriminate Hn;
    unfold price_line; simpl; eauto.
Qed.

(** C1, as the code has it: for a /price command with text, when the fast
    path [fetch_quote(text, timeout=2.4)] returns a [Live] or [DailyClose]
    quote, the formatted text is the immediate in-channel reply and no
    thread is started; when it returns [Unavailable] (or [RateLimited]), the
    immediate reply is the ephemeral "Working…" and one thread is started
    to post [build_price_text] to the response URL. *)
Theorem cmd_price_immediate_reply_needs_price (env : Env) (form : Form) tr (q : Quote) :
  strip (form_text_or_empty form) <> "" ->
  fetch_quote env (strip (form_text_or_empty form)) 2400 = (tr, Ok q) ->
  (none_or_rate_limit (fst (fst (fst q))) = false ->
   exists msg, price_line (upper (strip (form_text_or_empty form))) q = Ok msg
     /\ cmd_price env form = (tr, Ok (in_channel msg, [])))
  /\ (none_or_rate_limit (fst (fst (fst q))) = true ->
      cmd_price env form
      = (tr, Ok (working, [PostPriceText (form_response_url form)
                                         (strip (form_text_or_empty form))]))).
Proof.
  intros Htxt Hq. pose proof (fetch_quote_shape _ _ _ _ _ Hq) as Hshape.
  unfold cmd_price.
  destruct (String.eqb (strip (form_text_or_empty form)) "") eqn:E;
    [apply String.eqb_eq in E; contradiction|].
  rewrite Hq, bind_ok.
  destruct q as [[[price change] pct] src]. cbn [fst snd] in *.
  split; intros Hn; rewrite Hn; cbn [negb].
  - destruct (price_line_of_price (upper (strip (form_text_or_empty form)))
                (price, change, pct, src) Hshape Hn) as [msg Hmsg].
    exists msg. split; [exact Hmsg|].
    unfold lift. rewrite Hmsg, bind_ok. cbn. rewrite !app_nil_r. reflexivity.
  - cbn. rewrite app_nil_r. reflexivity.
Qed.

Lemma cmd_price_immediate_reply_needs_price_witness :
  exists msg,
    price_line "AAPL" (PFloat (FFin 1895 (-1)), PFloat (FFin (-12) (-1)), PStr "-0.63%", PStr "GLOBAL")
    = Ok msg
    /\ cmd_price (aapl_env (quote_payload (PStr "189.5000")) error_body) (price_form "aapl")
       = ([HttpGet (av_query_url "GLOBAL_QUOTE" "AAPL" "demo") 2400], Ok (in_channel msg, [])).
Proof.
  apply (cmd_price_immediate_reply_needs_price
           (aapl_env (quote_payload (PStr "189.5000")) error_body) (price_form "aapl")
           [HttpGet (av_query_url "GLOBAL_QUOTE" "AAPL" "demo") 2400]
           (PFloat (FFin 1895 (-1)), PFloat (FFin (-12) (-1)), PStr "-0.63%", PStr "GLOBAL")).
  - vm_compute. discriminate.
  - vm_compute. reflexivity.
  - vm_compute. reflexivity.
Defined.

(** ** The watchlist listing *)

Definition hook_url : string := "https://hooks.slack.com/commands/T1/B1".

(** C8, code bug: listing the watchlist [AAPL; ZZZZ] where the live
    endpoint answers ZZZZ with the JSON array [[]] aborts the whole batch:
    [fetch_quote] raises [AttributeError] on [j.get] after AAPL was already
    resolved, the listing thread dies and nothing is posted, so neither
    AAPL's line nor a no-data line for ZZZZ reaches the channel. *)
Theorem watchlist_listing_aborts_on_array_body :
  build_watchlist_text batch_env ["ZZZZ"; "AAPL"]
  = ([HttpGet (av_query_url "GLOBAL_QUOTE" "AAPL" "demo") 2800; Sleep 400;
      HttpGet (av_query_url "GLOBAL_QUOTE" "ZZZZ" "demo") 2800],
     Raise AttributeError)
  /\ run_task batch_env ["ZZZZ"; "AAPL"] (PostWatchlistText (Some hook_url))
     = ([HttpGet (av_query_url "GLOBAL_QUOTE" "AAPL" "demo") 2800; Sleep 400;
         HttpGet (av_query_url "GLOBAL_QUOTE" "ZZZZ" "demo") 2800],
        Raise AttributeError).
Proof. split; vm_compute; reflexivity. Qed.

(** C5, code bug: with [ALPHA_KEY] empty, [build_price_text] answers the
    "API key missing" message without any request, but the watchlist
    listing never looks at the key: it still queries Alpha Vantage with an
    empty [apikey] and, when the upstream answers with an error message,
    posts "(no data)" for the symbol instead of a configuration message. *)
Theorem watchlist_ignores_missing_key :
  build_price_text (const_env "" (Some error_body)) "aapl"
  = ([], Ok "AAPL: Alpha Vantage API key missing.")
  /\ run_task (const_env "" (Some error_body)) ["AAPL"] (PostWatchlistText (Some hook_url))
     = ([HttpGet (av_query_url "GLOBAL_QUOTE" "AAPL" "") 2800;
         HttpGet (av_query_url "TIME_SERIES_DAILY" "AAPL" "") 2800;
         Sleep 400;
         HttpPost hook_url ("📊 Watchlist:" ++ nl ++ "AAPL: (no data)")],
        Ok tt).
Proof. split; vm_compute; reflexivity. Qed.

(** ** Removing symbols from the watchlist *)


Lemma mem_In (t : string) (w : Store) : mem t w = true <-> In t w.
Proof.
  unfold mem. rewrite existsb_exists. split.
  - intros [x [Hx Heq]]. apply String.eqb_eq in Heq. subst. exact Hx.
  - intros H. exists t. split; [exact H | apply String.eqb_refl].
Qed.

Lemma filter_set_remove (t : string) (r : list string) (w : Store) :
  filter (fun x => negb (mem x r)) (set_remove t w)
  = filter (fun x => negb (mem x (t :: r))) w.
Proof.
  induction w as [|a w IH]; [reflexivity|].
  unfold set_remove in *. cbn [filter].
  unfold mem at 2. cbn [existsb]. fold (mem a r).
  rewrite (String.eqb_sym a t).
  destruct (String.eqb t a); cbn [negb orb andb filter]; rewrite ?IH; reflexivity.
Qed.




(** * Further properties of the handlers and the resolver *)

(** A sleep of the trace. *)
Definition is_sleep (e : Event) : bool := match e with Sleep _ => true | _ => false end.

Lemma fetch_quote_trace (env : Env) (ticker : string) (timeout : Z) :
  let t := upper (strip ticker) in
  fst (fetch_quote env ticker timeout) = [HttpGet (gq_url env t) timeout]
  \/ fst (fetch_quote env ticker timeout)
     = [HttpGet (gq_url env t) timeout;
        HttpGet (av_query_url "TIME_SERIES_DAILY" t (ALPHA_KEY env)) (Z.max 2000 timeout)].
Proof.
  intros t. unfold fetch_quote. fold t.
  rewrite live_request, bind_ok.
  pose proof (daily_fallback_trace env t timeout) as Hd.
  unfold global_quote, try_except, bind, lift, ret.
  destruct (daily_fallback env t timeout) as [dtr dr] eqn:Edf. cbn [fst] in Hd. subst dtr.
  split_matches; cbn; solve [left; reflexivity | right; reflexivity].
Qed.

(** The /price fast path makes at most two upstream requests, each with the
    2.4 s timeout (the daily fallback uses [max(2.0, 2.4)]); it never posts
    and never sleeps. *)
Theorem cmd_price_requests (env : Env) (form : Form) :
  Forall (fun e => exists u, e = HttpGet u 2400) (fst (cmd_price env form))
  /\ (List.length (fst (cmd_price env form)) <= 2)%nat.
Proof.
  unfold cmd_price.
  destruct (String.eqb (strip (form_text_or_empty form)) "").
  { split; [constructor | cbn; lia]. }
  pose proof (fetch_quote_trace env (strip (form_text_or_empty form)) 2400) as Htr.
  destruct (fetch_quote env (strip (form_text_or_empty form)) 2400) as [tr [q|e]] eqn:E;
    cbn [fst] in Htr.
  - rewrite bind_ok.
    assert (Hrest : forall (q : Quote),
      fst (let '(price, _, _, _) := q in
           if negb (none_or_rate_limit price) then
             msg <- lift (price_line (upper (strip (form_text_or_empty form))) q) ;;
             ret ({| response_type := "in_channel"; text := msg |}, [])
           else ret (working, [PostPriceText (form_response_url form)
                                             (strip (form_text_or_empty form))])) = []).
    { intros [[[p c] pc] s]. destruct (negb _); [|reflexivity].
      unfold lift. destruct (price_line _ _); reflexivity. }
    rewrite Hrest, app_nil_r. cbn [fst].
    destruct Htr as [-> | ->]; split; repeat constructor; eauto; cbn; lia.
  - rewrite bind_raise. cbn [fst].
    destruct Htr as [-> | ->]; split; repeat constructor; eauto; cbn; lia.
Qed.


(** [build_price_text] makes no request when [ALPHA_KEY] is empty and
    otherwise exactly those of [fetch_quote(ticker)]; whenever the key is
    empty or [fetch_quote] returns, its text is the uppercased ticker, [": "]
    and a message: formatting a returned quote never raises. *)
Theorem build_price_text_total (env : Env) (ticker : string) :
  fst (build_price_text env ticker)
  = (if String.eqb (ALPHA_KEY env) "" then [] else fst (fetch_quote env ticker 2800))
  /\ ((ALPHA_KEY env = "" \/ exists tr q, fetch_quote env ticker 2800 = (tr, Ok q)) ->
      exists tr rest, build_price_text env ticker = (tr, Ok (upper ticker ++ ": " ++ rest))).
Proof.
  unfold build_price_text.
  destruct (String.eqb (ALPHA_KEY env) "") eqn:Ek.
  { split; [reflexivity|]. intros _. do 2 eexists. reflexivity. }
  split.
  - destruct (fetch_quote env ticker 2800) as [tr [q|e]]; [|reflexivity].
    rewrite bind_ok. cbn [fst]. destruct q as [[[p c] pc] s].
    destruct (eq_str p "RATE_LIMIT"); [apply app_nil_r|].
    destruct (is_none p); [apply app_nil_r|].
    unfold lift. cbn [fst]. apply app_nil_r.
  - intros [Hk | [tr [q E]]]; [apply String.eqb_neq in Ek; contradiction|].
    pose proof (fetch_quote_shape _ _ _ _ _ E) as Hs.
    rewrite E, bind_ok.
    destruct Hs as [->|[->|[[p [c [pct ->]]]|[p ->]]]]; cbn; do 2 eexists; reflexivity.
Qed.

Lemma build_price_text_total_witness :
  exists tr rest,
    build_price_text (aapl_env (quote_payload (PStr "189.5000")) error_body) "aapl"
    = (tr, Ok ("AAPL: " ++ rest)).
Proof.
  apply (proj2 (build_price_text_total (aapl_env (quote_payload (PStr "189.5000")) error_body) "aapl")).
  right. do 2 eexists. vm_compute. reflexivity.
Defined.


Lemma fetch_quote_no_sleep (env : Env) (t : string) (timeout : Z) :
  filter is_sleep (fst (fetch_quote env t timeout)) = [].
Proof. destruct (fetch_quote_trace env t timeout) as [-> | ->]; reflexivity. Qed.

Lemma watchlist_line_ok (env : Env) (t : string) tr (q : Quote) :
  fetch_quote env t 2800 = (tr, Ok q) ->
  exists rest, watchlist_line env t = (tr, Ok (t ++ ": " ++ rest)).
Proof.
  intros E. pose proof (fetch_quote_shape _ _ _ _ _ E) as Hs.
  unfold watchlist_line. rewrite E, bind_ok.
  destruct Hs as [->|[->|[[p [c [pct ->]]]|[p ->]]]]; cbn; rewrite app_nil_r; eexists; reflexivity.
Qed.

Lemma watchlist_lines_ok (env : Env) (ts : list string) :
  (forall t, In t ts -> exists tr q, fetch_quote env t 2800 = (tr, Ok q)) ->
  exists lines,
    snd (watchlist_lines env ts) = Ok lines
    /\ Forall2 (fun t l => exists rest, l = t ++ ": " ++ rest) ts lines
    /\ filter is_sleep (fst (watchlist_lines env ts)) = repeat (Sleep 400) (List.length ts).
Proof.
  induction ts as [|t r IH]; intros H.
  - exists []. repeat constructor.
  - destruct (H t (or_introl eq_refl)) as [tr [q E]].
    destruct (watchlist_line_ok _ _ _ _ E) as [rest Hl].
    destruct IH as [lines [Hr [Hf Hs]]]; [intros x Hx; apply H; right; exact Hx|].
    cbn [watchlist_lines]. rewrite Hl, bind_ok, bind_ok.
    destruct (watchlist_lines env r) as [tr' res] eqn:Er. cbn [snd] in Hr. subst res.
    rewrite bind_ok. cbn [fst snd ret].
    exists ((t ++ ": " ++ rest) :: lines). split; [reflexivity|]. split.
    + constructor; [eexists; reflexivity | exact Hf].
    + cbn [fst] in Hs. rewrite !filter_app, app_nil_r, Hs.
      pose proof (fetch_quote_no_sleep env t 2800) as Hn. rewrite E in Hn. cbn [fst] in Hn.
      rewrite Hn. reflexivity.
Qed.

Lemma insert_sorted_length (x : string) (l : list string) :
  List.length (insert_sorted x l) = S (List.length l).
Proof.
  induction l as [|y r IH]; [reflexivity|]. cbn [insert_sorted].
  destruct (String.leb x y); cbn [List.length]; [reflexivity | rewrite IH; reflexivity].
Qed.

Lemma sorted_length (l : list string) : List.length (sorted l) = List.length l.
Proof.
  induction l as [|x r IH]; [reflexivity|]. cbn [sorted List.length].
  rewrite insert_sorted_length, IH. reflexivity.
Qed.

(** When no symbol's [fetch_quote] raises, the listing of a non-empty
    watchlist is the header followed by one line per symbol, in sorted
    order, each starting with the symbol and [": "]; it sleeps 0.4 s once per
    symbol. *)
Theorem watchlist_listing_lines (env : Env) (w : Store) :
  w <> [] ->
  (forall t, In t w -> exists tr q, fetch_quote env t 2800 = (tr, Ok q)) ->
  exists lines,
    snd (build_watchlist_text env w) = Ok ("📊 Watchlist:" ++ nl ++ join nl lines)
    /\ Forall2 (fun t l => exists rest, l = t ++ ": " ++ rest) (sorted w) lines
    /\ filter is_sleep (fst (build_watchlist_text env w)) = repeat (Sleep 400) (List.length w).
Proof.
  intros Hne H.
  destruct (watchlist_lines_ok env (sorted w)) as [lines [Hr [Hf Hs]]].
  { intros t Ht. apply H. apply (proj1 (sorted_in t w)). exact Ht. }
  exists lines.
  assert (Hb : build_watchlist_text env w
               = (lines0 <- watchlist_lines env (sorted w) ;;
                  ret ("📊 Watchlist:" ++ nl ++ join nl lines0))).
  { destruct w; [contradiction | reflexivity]. }
  rewrite Hb. destruct (watchlist_lines env (sorted w)) as [tr res]. cbn [snd] in Hr. subst res.
  rewrite bind_ok. cbn [fst snd ret]. rewrite app_nil_r.
  split; [reflexivity|]. split; [exact Hf|]. cbn [fst] in Hs. rewrite Hs, sorted_length. reflexivity.
Qed.

Lemma watchlist_listing_lines_witness :
  exists lines,
    snd (build_watchlist_text (aapl_env (quote_payload (PStr "189.5000")) error_body) ["MSFT"; "AAPL"])
    = Ok ("📊 Watchlist:" ++ nl ++ join nl lines)
    /\ Forall2 (fun t l => exists rest, l = t ++ ": " ++ rest) (sorted ["MSFT"; "AAPL"]) lines
    /\ filter is_sleep (fst (build_watchlist_text (aapl_env (quote_payload (PStr "189.5000")) error_body)
                                                  ["MSFT"; "AAPL"]))
       = repeat (Sleep 400) 2.
Proof.
  apply (watchlist_listing_lines (aapl_env (quote_payload (PStr "189.5000")) error_body) ["MSFT"; "AAPL"]).
  - discriminate.
  - intros t [<-|[<-|[]]]; do 2 eexists; vm_compute; reflexivity.
Defined.



Lemma set_add_In (t x : string) (w : Store) : In x (set_add t w) <-> In x w \/ x = t.
Proof.
  unfold set_add. destruct (mem t w) eqn:Hm.
  - apply mem_In in Hm. split; [tauto|]. intros [H| ->]; assumption.
  - rewrite in_app_iff. cbn. intuition.
Qed.

Lemma set_add_NoDup (t : string) (w : Store) : NoDup w -> NoDup (set_add t w).
Proof.
  intros Hw. unfold set_add. destruct (mem t w) eqn:Hm; [exact Hw|].
  apply (Permutation_NoDup (Permutation_app_comm [t] w)). constructor; [|exact Hw].
  intros Hin. apply mem_In in Hin. congruence.
Qed.

Lemma fold_set_add_In (ts : list string) (w : Store) (x : string) :
  In x (fold_left (fun acc t => set_add t acc) ts w) <-> In x w \/ In x ts.
Proof.
  revert w. induction ts as [|t r IH]; intros w; cbn [fold_left];
    [split; [left; assumption | intros [H|[]]; exact H]|].
  rewrite IH, set_add_In. cbn. intuition (subst; auto).
Qed.

Lemma fold_set_add_NoDup (ts : list string) (w : Store) :
  NoDup w -> NoDup (fold_left (fun acc t => set_add t acc) ts w).
Proof.
  revert w. induction ts as [|t r IH]; intros w Hw; [exact Hw|].
  apply IH, set_add_NoDup, Hw.
Qed.

Lemma filter_mem_not_in (t : string) (r : list string) (w : Store) :
  mem t w = false ->
  filter (fun x => negb (mem x r)) w = filter (fun x => negb (mem x (t :: r))) w.
Proof.
  intros Hm. apply filter_ext_in. intros x Hx.
  unfold mem at 2. cbn [existsb]. fold (mem x r).
  destruct (String.eqb x t) eqn:E; [|reflexivity].
  apply String.eqb_eq in E. subst x. apply mem_In in Hx. congruence.
Qed.

Lemma remove_loop_result (w : Store) (ts : list string) :
  let '(removed, missing, w') := remove_loop w ts in
  w' = filter (fun x => negb (mem x ts)) w
  /\ (List.length removed + List.length missing = List.length ts)%nat.
Proof.
  revert w. induction ts as [|t r IH]; intros w.
  - cbn. split; [|reflexivity].
    induction w as [|a w IHw]; [reflexivity|]. cbn. rewrite <- IHw. reflexivity.
  - cbn [remove_loop]. destruct (mem t w) eqn:Hm.
    + specialize (IH (set_remove t w)).
      destruct (remove_loop (set_remove t w) r) as [[rm ms] w'].
      destruct IH as [-> Hl]. split; [apply filter_set_remove | cbn; lia].
    + specialize (IH w). destruct (remove_loop w r) as [[rm ms] w'].
      destruct IH as [-> Hl]. split; [apply filter_mem_not_in; exact Hm | cbn; lia].
Qed.


(** [/watchlist add T...]: the reply lists the uppercased tickers as given;
    the watchlist afterwards holds exactly the previous symbols and those
    tickers, and still has no duplicates. *)
Theorem cmd_watchlist_add (w : Store) (form : Form) (a : string) (args : list string) :
  split_ws (strip (form_text_or_empty form)) = a :: args ->
  lower a = "add" -> args <> [] ->
  exists w',
    cmd_watchlist w form = (in_channel ("✅ Added: " ++ join ", " (map upper args)), [], w')
    /\ (forall x, In x w' <-> In x w \/ In x (map upper args))
    /\ (NoDup w -> NoDup w').
Proof.
  intros Hp Ha Hne. unfold cmd_watchlist. rewrite Hp, Ha.
  destruct args as [|x r]; [contradiction|]. cbn [String.eqb andb map List.length Nat.eqb negb].
  eexists. split; [reflexivity|]. split.
  - intros y. apply fold_set_add_In.
  - apply fold_set_add_NoDup.
Qed.

(** [/watchlist remove T...] (any input, repetitions included): the
    watchlist afterwards is the previous one without the uppercased tickers,
    no thread is started, and the reply is never "No changes.". *)
Theorem cmd_watchlist_remove (w : Store) (form : Form) (a : string) (args : list string) :
  split_ws (strip (form_text_or_empty form)) = a :: args ->
  lower a = "remove" -> args <> [] ->
  exists msg,
    cmd_watchlist w form = (in_channel msg, [], filter (fun x => negb (mem x (map upper args))) w)
    /\ msg <> "No changes.".
Proof.
  intros Hp Ha Hne. unfold cmd_watchlist. rewrite Hp, Ha.
  destruct args as [|x r]; [contradiction|]. cbn [String.eqb andb map List.length Nat.eqb negb].
  set (ts := upper x :: map upper r).
  pose proof (remove_loop_result w ts) as Hr.
  destruct (remove_loop w ts) as [[rm ms] w'].
  destruct Hr as [-> Hl].
  eexists. split; [reflexivity|].
  destruct rm as [|r0 rm]; destruct ms as [|m0 ms]; cbn in Hl; [discriminate Hl| | |];
    cbn; discriminate.
Qed.


(** /watchlist with no text or with the action [list] (any case) answers
    "Working…", starts one listing thread for the response URL and leaves
    the watchlist as it is; no other /watchlist command starts a thread. *)
Theorem cmd_watchlist_list_threads (w : Store) (form : Form) :
  let parts := split_ws (strip (form_text_or_empty form)) in
  ((parts = [] \/ exists a args, parts = a :: args /\ lower a = "list") ->
   cmd_watchlist w form = (working, [PostWatchlistText (form_response_url form)], w))
  /\ (snd (fst (cmd_watchlist w form)) <> [] ->
      parts = [] \/ exists a args, parts = a :: args /\ lower a = "list").
Proof.
  intros parts. unfold cmd_watchlist. fold parts. split.
  - intros [-> | [a [args [-> Ha]]]]; [reflexivity|]. rewrite Ha. reflexivity.
  - destruct parts as [|a args]; [left; reflexivity|]. intros Ht. right.
    exists a, args. split; [reflexivity|].
    destruct (String.eqb (lower a) "add" && _); [contradiction Ht; reflexivity|].
    destruct (String.eqb (lower a) "remove" && _).
    { destruct (remove_loop w (map upper args)) as [[rm ms] w']. contradiction Ht; reflexivity. }
    destruct (String.eqb (lower a) "list") eqn:E; [apply String.eqb_eq, E|].
    contradiction Ht; reflexivity.
Qed.

Lemma cmd_watchlist_list_threads_witness :
  cmd_watchlist ["AAPL"] (price_form " LIST ")
  = (working, [PostWatchlistText (Some "https://hooks.slack.com/commands/T1/B1")], ["AAPL"]).
Proof.
  apply (proj1 (cmd_watchlist_list_threads ["AAPL"] (price_form " LIST "))).
  right. exists "LIST", []. split; vm_compute; reflexivity.
Defined.


Lemma cmd_watchlist_add_witness :
  exists w',
    cmd_watchlist ["AAPL"] (price_form "Add msft aapl")
    = (in_channel ("✅ Added: " ++ join ", " (map upper ["msft"; "aapl"])), [], w')
    /\ (forall x, In x w' <-> In x ["AAPL"] \/ In x (map upper ["msft"; "aapl"]))
    /\ (NoDup ["AAPL"] -> NoDup w').
Proof.
  apply (cmd_watchlist_add ["AAPL"] (price_form "Add msft aapl") "Add" ["msft"; "aapl"]).
  - vm_compute. reflexivity.
  - vm_compute. reflexivity.
  - discriminate.
Defined.

Lemma cmd_watchlist_remove_witness :
  exists msg,
    cmd_watchlist ["AAPL"; "MSFT"] (price_form "remove msft tsla")
    = (in_channel msg, [], filter (fun x => negb (mem x (map upper ["msft"; "tsla"]))) ["AAPL"; "MSFT"])
    /\ msg <> "No changes.".
Proof.
  apply (cmd_watchlist_remove ["AAPL"; "MSFT"] (price_form "remove msft tsla") "remove" ["msft"; "tsla"]).
  - vm_compute. reflexivity.
  - vm_compute. reflexivity.
  - discriminate.
Defined.


Lemma daily_close_raise_body (env : Env) (t : string) (timeout : Z) (e : PyExc) :
  snd (_daily_close env t timeout) = Raise e ->
  exists j, get_json env (av_query_url "TIME_SERIES_DAILY" t (ALPHA_KEY env)) timeout = Some j
            /\ is_dict j = false.
Proof.
  unfold _daily_close, try_except, http_get_json.
  destruct (get_json env (av_query_url "TIME_SERIES_DAILY" t (ALPHA_KEY env)) timeout)
    as [j|] eqn:Eg; [|cbn; discriminate].
  intros H. exists j. split; [reflexivity|]. destruct j as [| | | | | |kvs]; try reflexivity.
  revert H. unfold bind, lift, ret, _is_rate_limited, _is_info_or_error, py_in, py_get, rbind.
  split_matches; cbn; intros H; try discriminate H.
Qed.

Lemma is_rate_limited_dict (kvs : list (string * PyVal)) :
  exists b, _is_rate_limited (PDict kvs) = Ok b.
Proof. unfold _is_rate_limited. cbn. destruct (existsb _ kvs); eauto. Qed.

Lemma quote_of_dict (kvs : list (string * PyVal)) : exists q, quote_of (PDict kvs) = Ok q.
Proof. unfold quote_of. cbn. destruct (truthy _); eauto. Qed.

Lemma global_quote_ok (px chg pct : PyVal) : exists tr o, global_quote px chg pct = (tr, Ok o).
Proof.
  unfold global_quote, try_except.
  destruct (if is_none px then ret None else _) as [tr [o|e]]; cbn; eauto.
Qed.

Lemma daily_fallback_raise (env : Env) (t : string) (timeout : Z) (e : PyExc) :
  snd (daily_fallback env t timeout) = Raise e ->
  snd (_daily_close env t (Z.max 2000 timeout)) = Raise e.
Proof.
  unfold daily_fallback, bind.
  destruct (_daily_close env t (Z.max 2000 timeout)) as [tr [[src px]|e']]; [|cbn; intros H; inversion H; reflexivity].
  unfold ret. split_matches; cbn; intros H; discriminate H.
Qed.

Lemma fetch_quote_dict_raise (env : Env) (t : string) (timeout : Z) (e : PyExc) kvs :
  snd (rl <- lift (_is_rate_limited (PDict kvs)) ;;
       if rl then ret rate_limited_quote else
       _ <- lift (_is_info_or_error (PDict kvs)) ;;
       quote <- lift (quote_of (PDict kvs)) ;;
       px <- lift (price_of quote) ;;
       chg <- lift (get_either quote "09. change" "09.change") ;;
       pct <- lift (get_either quote "10. change percent" "10.change percent") ;;
       g <- global_quote px chg pct ;;
       match g with
       | Some q => ret q
       | None => daily_fallback env t timeout
       end) = Raise e ->
  (exists q, quote_of (PDict kvs) = Ok q /\ is_dict q = false)
  \/ snd (daily_fallback env t timeout) = Raise e.
Proof.
  destruct (is_rate_limited_dict kvs) as [b Hb].
  destruct (is_info_or_error_dict kvs) as [b' Hb'].
  destruct (quote_of_dict kvs) as [q Hq].
  unfold lift. rewrite Hb, bind_ok. destruct b; [cbn; discriminate|].
  rewrite Hb', bind_ok, Hq, bind_ok. cbn [fst snd].
  destruct q as [| | | | | |qkvs]; try (left; eexists; split; [reflexivity | reflexivity]).
  destruct (get_either_dict qkvs "05. price" "05.price") as [px Hpx].
  destruct (get_either_dict qkvs "09. change" "09.change") as [chg Hchg].
  destruct (get_either_dict qkvs "10. change percent" "10.change percent") as [pct Hpct].
  unfold price_of. rewrite Hpx, bind_ok. cbn [fst snd].
  rewrite Hchg, bind_ok. cbn [fst snd]. rewrite Hpct, bind_ok. cbn [fst snd].
  destruct (global_quote_ok px chg pct) as [tr [o Ho]]. rewrite Ho, bind_ok. cbn [snd].
  destruct o as [q'|]; [cbn; discriminate|]. intros H. right. exact H.
Qed.

(** [fetch_quote] raises only when an upstream body is valid JSON that is
    not an object: the live body itself, its ["Global Quote"] value (after
    the [or] fallbacks), or the daily-series body.  Network and decoding
    errors, rate limits and bad prices never raise. *)
Theorem fetch_quote_raises_only_on_non_objects (env : Env) (ticker : string) (timeout : Z)
  (e : PyExc) :
  snd (fetch_quote env ticker timeout) = Raise e ->
  (exists j, get_json env (gq_url env (upper (strip ticker))) timeout = Some j
             /\ (is_dict j = false \/ exists q, quote_of j = Ok q /\ is_dict q = false))
  \/ (exists j, get_json env (av_query_url "TIME_SERIES_DAILY" (upper (strip ticker)) (ALPHA_KEY env))
                          (Z.max 2000 timeout) = Some j
                /\ is_dict j = false).
Proof.
  intros H. unfold fetch_quote in H. set (t := upper (strip ticker)) in *.
  rewrite live_request, bind_ok in H. cbn [snd] in H.
  destruct (get_json env (gq_url env t) timeout) as [j|] eqn:Eg; cbn [received_payload] in H.
  - destruct j as [| | | | | |kvs];
      try (left; eexists; split; [reflexivity | left; reflexivity]).
    destruct (fetch_quote_dict_raise env t timeout e kvs H) as [Hq|Hd].
    + left. exists (PDict kvs). split; [reflexivity | right; exact Hq].
    + right. apply (daily_close_raise_body env t (Z.max 2000 timeout) e).
      apply daily_fallback_raise, Hd.
  - destruct (fetch_quote_dict_raise env t timeout e [] H) as [[q [Hq Hd]]|Hd].
    + cbn in Hq. inversion Hq. subst q. discriminate Hd.
    + right. apply (daily_close_raise_body env t (Z.max 2000 timeout) e).
      apply daily_fallback_raise, Hd.
Qed.

(** A failed live request (network or JSON error) is treated as [{}]: after
    it, exactly one more request is made, the daily series with
    [max(2.0, timeout)], and the daily-close fallback's result is returned. *)
Theorem fetch_quote_network_error_falls_back (env : Env) (ticker : string) (timeout : Z) :
  get_json env (gq_url env (upper (strip ticker))) timeout = None ->
  fetch_quote env ticker timeout
  = ([HttpGet (gq_url env (upper (strip ticker))) timeout;
      HttpGet (av_query_url "TIME_SERIES_DAILY" (upper (strip ticker)) (ALPHA_KEY env))
              (Z.max 2000 timeout)],
     snd (daily_fallback env (upper (strip ticker)) timeout)).
Proof.
  intros Eg. unfold fetch_quote. set (t := upper (strip ticker)) in *.
  pose proof (daily_fallback_trace env t timeout) as Htr.
  rewrite live_request, Eg, bind_ok. cbn [received_payload].
  cbn -[daily_fallback]. destruct (daily_fallback env t timeout) as [l r].
  cbn [fst] in Htr. subst l. reflexivity.
Qed.

Lemma fetch_quote_network_error_falls_back_witness :
  fetch_quote (const_env "demo" None) " msft" 2400
  = ([HttpGet (av_query_url "GLOBAL_QUOTE" "MSFT" "demo") 2400;
      HttpGet (av_query_url "TIME_SERIES_DAILY" "MSFT" "demo") 2400], Ok no_quote).
Proof.
  rewrite (fetch_quote_network_error_falls_back (const_env "demo" None) " msft" 2400);
    vm_compute; reflexivity.
Defined.

Lemma fetch_quote_raises_only_on_non_objects_witness :
  (exists j, get_json batch_env (gq_url batch_env (upper (strip "zzzz"))) 2800 = Some j
             /\ (is_dict j = false \/ exists q, quote_of j = Ok q /\ is_dict q = false))
  \/ (exists j, get_json batch_env (av_query_url "TIME_SERIES_DAILY" (upper (strip "zzzz"))
                                                 (ALPHA_KEY batch_env)) (Z.max 2000 2800) = Some j
                /\ is_dict j = false).
Proof.
  apply (fetch_quote_raises_only_on_non_objects batch_env "zzzz" 2800 AttributeError).
  vm_compute. reflexivity.
Defined.

(** The requests of [fetch_quote]: the live quote for the stripped,
    uppercased symbol with the caller's timeout, then at most the daily
    series with [max(2.0, timeout)]; it never posts or sleeps, also when it
    raises. *)
Theorem fetch_quote_requests (env : Env) (ticker : string) (timeout : Z) :
  fst (fetch_quote env ticker timeout) = [HttpGet (gq_url env (upper (strip ticker))) timeout]
  \/ fst (fetch_quote env ticker timeout)
     = [HttpGet (gq_url env (upper (strip ticker))) timeout;
        HttpGet (av_query_url "TIME_SERIES_DAILY" (upper (strip ticker)) (ALPHA_KEY env))
                (Z.max 2000 timeout)].
Proof. exact (fetch_quote_trace env ticker timeout). Qed.

(** [_daily_close] raises only when the daily-series body is valid JSON that
    is not an object; a failed request, a rate limit, an error message and
    every parse failure of the series give a result. *)
Theorem daily_close_raises_only_on_non_object (env : Env) (t : string) (timeout : Z)
  (e : PyExc) :
  snd (_daily_close env t timeout) = Raise e ->
  exists j, get_json env (av_query_url "TIME_SERIES_DAILY" t (ALPHA_KEY env)) timeout = Some j
            /\ is_dict j = false.
Proof. exact (daily_close_raise_body env t timeout e). Qed.

Lemma daily_close_raises_only_on_non_object_witness :
  exists j, get_json (const_env "demo" (Some (PList [])))
                     (av_query_url "TIME_SERIES_DAILY" "AAPL" "demo") 2400 = Some j
            /\ is_dict j = false.
Proof.
  apply (daily_close_raises_only_on_non_object (const_env "demo" (Some (PList []))) "AAPL" 2400
           AttributeError).
  vm_compute. reflexivity.
Defined.
